(** * Charisma: a shallow embedding of [src/charisma.js]

    The program is an interactive menu loop around a handful of small
    functions: a filename derivation, a formatter probe, a JSON history
    file, a gist upload.  The functions are embedded one by one, under
    the names of the source; the body of the loop in [main] is
    [iteration], and its code-generating branch is [newCode].

    What the program does to the outside (files, terminal, child
    processes, network) is threaded through an explicit [World]; what
    the outside answers (keys and lines typed, exit statuses, responses,
    the clock) is read from a script of events.  A computation returns,
    throws, or is followed no further: it waits for an answer that the
    script does not hold, or met a value that the model does not hold.

    Conventions of the model:
    - a string is a sequence of code units, kept below 256 (one [ascii]
      per unit); text of the source outside that range is only printed,
      and is carried as its UTF-8 bytes.  The derivation of the file
      name is also given for a prompt of any code units
      ([Units.getFilename]), where it differs from what the
      specification says;
    - the file system maps a path, as the program passes it, to the
      text of the file; a write fails when the file name is longer than
      the system allows;
    - [JSON.parse] and [JSON.stringify], built-ins of the language, are
      modelled for the values a JSON text can hold, numbers by their
      lexeme.  A text that escapes a code unit of 256 or more is JSON
      ([JSON.valid]) with a value that the model does not hold. *)

From Stdlib Require Import ZArith Lia Ascii String.
From stdpp Require Import base option list strings gmap pretty.

Set Warnings "-register-all".

Open Scope string_scope.
Open Scope list_scope.

(** ** Strings as the built-ins of the language treat them *)

Module Str.

Definition code (c : ascii) : N := N_of_ascii c.

Definition between (lo hi : N) (c : ascii) : bool :=
  ((lo <=? code c) && (code c <=? hi))%N.

Definition is_digit : ascii -> bool := between 48 57.
Definition is_lower : ascii -> bool := between 97 122.
Definition is_upper : ascii -> bool := between 65 90.

(** [String.prototype.toLowerCase], one code unit at a time.  Below 256
    the upper-case letters are A-Z and the range U+00C0..U+00DE without
    the multiplication sign U+00D7; each maps to the unit 32 above. *)
Definition lower_char (c : ascii) : ascii :=
  if is_upper c || (between 192 222 c && negb (code c =? 215)%N)
  then ascii_of_N (code c + 32)
  else c.

Fixpoint map (f : ascii -> ascii) (s : string) : string :=
  match s with
  | EmptyString => EmptyString
  | String c s' => String (f c) (map f s')
  end.

Definition toLowerCase (s : string) : string := map lower_char s.

(** [s.replace(re, by)] for a global regular expression [re] that is a
    single character class: every code unit in the class is replaced. *)
Fixpoint replace (class : ascii -> bool) (by_ : string) (s : string) : string :=
  match s with
  | EmptyString => EmptyString
  | String c s' =>
      (if class c then by_ else String c EmptyString) +:+ replace class by_ s'
  end.

Fixpoint forallb (p : ascii -> bool) (s : string) : bool :=
  match s with
  | EmptyString => true
  | String c s' => p c && forallb p s'
  end.

(** White space and line terminators of [String.prototype.trim] below
    256: TAB, LF, VT, FF, CR, SPACE and NBSP. *)
Definition is_space (c : ascii) : bool :=
  between 9 13 c || (code c =? 32)%N || (code c =? 160)%N.

Fixpoint trimStart (s : string) : string :=
  match s with
  | EmptyString => EmptyString
  | String c s' => if is_space c then trimStart s' else s
  end.

Fixpoint trimEnd (s : string) : string :=
  match s with
  | EmptyString => EmptyString
  | String c s' =>
      match trimEnd s' with
      | EmptyString => if is_space c then EmptyString else String c EmptyString
      | t => String c t
      end
  end.

Definition trim (s : string) : string := trimEnd (trimStart s).

(** [s.split(' ')[0]]: the text before the first space. *)
Fixpoint first_word (s : string) : string :=
  match s with
  | EmptyString => EmptyString
  | String c s' => if (code c =? 32)%N then EmptyString else String c (first_word s')
  end.

(** [sep.join(l)] *)
Fixpoint join (sep : string) (l : list string) : string :=
  match l with
  | [] => ""
  | [x] => x
  | x :: l' => x +:+ sep +:+ join sep l'
  end.

(** The code units of a text, as numbers. *)
Fixpoint units (s : string) : list N :=
  match s with
  | EmptyString => []
  | String c s' => code c :: units s'
  end.

End Str.

(** ** Regular expressions of the source *)

(** [/[^a-z0-9]/gi]: with the [i] flag and without [u], a code unit is in
    the negated class unless it is an ASCII letter of either case or a
    digit. *)
Definition re_not_alnum_i (c : ascii) : bool :=
  negb (Str.is_lower c || Str.is_upper c || Str.is_digit c).

(** [/[^a-z0-9]/g], the class as the specification writes it, applied
    after lower-casing. *)
Definition re_not_alnum (c : ascii) : bool :=
  negb (Str.is_lower c || Str.is_digit c).

(** ** The formatter registry *)

Record Formatter := { cmd : string; ext : string }.

Definition formatters : list (string * Formatter) :=
  [ ("C",          {| cmd := "clang-format -i";  ext := ".c" |});
    ("C++",        {| cmd := "clang-format -i";  ext := ".cpp" |});
    ("Python",     {| cmd := "black";            ext := ".py" |});
    ("JavaScript", {| cmd := "prettier --write"; ext := ".js" |});
    ("Java",       {| cmd := "clang-format -i";  ext := ".java" |});
    ("Go",         {| cmd := "gofmt -w";         ext := ".go" |});
    ("Ruby",       {| cmd := "rufo";             ext := ".rb" |}) ].

(** [formatters[lang]] *)
Fixpoint assoc {A} (k : string) (l : list (string * A)) : option A :=
  match l with
  | [] => None
  | (k', v) :: l' => if String.eqb k k' then Some v else assoc k l'
  end.

(** [Object.keys(formatters)] *)
Definition languages : list string := fst <$> formatters.

(** ** JSON, as far as the history file needs it

    [JSON.stringify] and [JSON.parse] are built-ins of the language, not
    code of the repository; they are modelled here so that the history
    file is a real text.  Numbers are carried as their lexeme, an object
    as the list of its members in source order. *)

Module JSON.

Inductive value :=
| JNull
| JBool (b : bool)
| JNum (lexeme : string)
| JStr (s : string)
| JArr (items : list value)
| JObj (members : list (string * value)).

Definition DQUOTE : ascii := "034"%char.
Definition LF : ascii := "010"%char.
Definition BACKSLASH : ascii := "092"%char.

Definition chr (c : ascii) : string := String c EmptyString.

(** *** Printing: [JSON.stringify(value, null, space)] *)

Definition hex_digit (n : N) : ascii :=
  if (n <? 10)%N then ascii_of_N (48 + n) else ascii_of_N (87 + n).

(** QuoteJSONString, one code unit. *)
Definition escape_char (c : ascii) : string :=
  let n := Str.code c in
  if (n =? 34)%N then String BACKSLASH (chr DQUOTE)
  else if (n =? 92)%N then String BACKSLASH (chr BACKSLASH)
  else if (n =? 8)%N then "\b"
  else if (n =? 12)%N then "\f"
  else if (n =? 10)%N then "\n"
  else if (n =? 13)%N then "\r"
  else if (n =? 9)%N then "\t"
  else if (n <? 32)%N then
    "\u00" +:+ String (hex_digit (n / 16)) (chr (hex_digit (n mod 16)))
  else chr c.

Fixpoint escape (s : string) : string :=
  match s with
  | EmptyString => EmptyString
  | String c s' => escape_char c +:+ escape s'
  end.

Definition quote (s : string) : string :=
  String DQUOTE (escape s +:+ chr DQUOTE).

(** SerializeJSONProperty with the gap [gap]; [indent] is the current
    indentation. *)
Fixpoint serialize (gap indent : string) (v : value) : string :=
  match v with
  | JNull => "null"
  | JBool true => "true"
  | JBool false => "false"
  | JNum lexeme => lexeme
  | JStr s => quote s
  | JArr [] => "[]"
  | JArr items =>
      let inner := indent +:+ gap in
      let parts := List.map (serialize gap inner) items in
      if String.eqb gap "" then "[" +:+ Str.join "," parts +:+ "]"
      else
        "[" +:+ chr LF +:+ inner +:+
        Str.join ("," +:+ chr LF +:+ inner) parts +:+
        chr LF +:+ indent +:+ "]"
  | JObj [] => "{}"
  | JObj members =>
      let inner := indent +:+ gap in
      let colon := if String.eqb gap "" then ":" else ": " in
      let parts :=
        List.map (fun kv => quote (fst kv) +:+ colon +:+ serialize gap inner (snd kv))
                 members in
      if String.eqb gap "" then "{" +:+ Str.join "," parts +:+ "}"
      else
        "{" +:+ chr LF +:+ inner +:+
        Str.join ("," +:+ chr LF +:+ inner) parts +:+
        chr LF +:+ indent +:+ "}"
  end.

Fixpoint spaces (n : nat) : string :=
  match n with
  | O => ""
  | S n' => String " " (spaces n')
  end.

(** [JSON.stringify(v, null, space)] for a numeric [space] (at most 10). *)
Definition stringify (v : value) (space : nat) : string :=
  serialize (spaces (Nat.min space 10)) "" v.

(** *** Reading: [JSON.parse(text)]

    A lexer that walks the text once, then a recursive descent over the
    tokens. *)

Inductive token :=
| TLBrace | TRBrace | TLBrack | TRBrack | TColon | TComma
| TStr (s : string)
| TNum (lexeme : string)
| TTrue | TFalse | TNull.

Inductive mode :=
| MNormal                               (* between tokens *)
| MStr (acc : string)                   (* inside a string literal *)
| MEsc (acc : string)                   (* after a backslash *)
| MHex (acc : string) (k : nat) (v : N) (* in \u, [S k] digits to read *)
| MAtom (acc : string).                 (* inside a number or a keyword *)

Definition is_ws (c : ascii) : bool :=
  let n := Str.code c in
  ((n =? 32) || (n =? 9) || (n =? 10) || (n =? 13))%N.

Definition punct (c : ascii) : option token :=
  let n := Str.code c in
  if (n =? 123)%N then Some TLBrace
  else if (n =? 125)%N then Some TRBrace
  else if (n =? 91)%N then Some TLBrack
  else if (n =? 93)%N then Some TRBrack
  else if (n =? 58)%N then Some TColon
  else if (n =? 44)%N then Some TComma
  else None.

Definition is_atom_char (c : ascii) : bool :=
  let n := Str.code c in
  Str.is_lower c || Str.is_upper c || Str.is_digit c ||
  ((n =? 43) || (n =? 45) || (n =? 46))%N.

Definition hex_value (c : ascii) : option N :=
  let n := Str.code c in
  if Str.is_digit c then Some (n - 48)%N
  else if Str.between 97 102 c then Some (n - 87)%N
  else if Str.between 65 70 c then Some (n - 55)%N
  else None.

Definition unescape (c : ascii) : option ascii :=
  let n := Str.code c in
  if (n =? 34)%N then Some DQUOTE
  else if (n =? 92)%N then Some BACKSLASH
  else if (n =? 47)%N then Some "/"%char
  else if (n =? 98)%N then Some "008"%char
  else if (n =? 102)%N then Some "012"%char
  else if (n =? 110)%N then Some LF
  else if (n =? 114)%N then Some "013"%char
  else if (n =? 116)%N then Some "009"%char
  else None.

(** The number grammar: an optional minus sign; a zero, or a non-zero
    digit and further digits; optionally a dot and one digit or more;
    optionally an exponent mark, a sign and one digit or more. *)
Inductive numstate :=
| NStart | NMinus | NZero | NInt | NDot | NFrac
| NExp | NExpSign | NExpDigits | NBad.

Definition num_step (st : numstate) (c : ascii) : numstate :=
  let n := Str.code c in
  let digit := Str.is_digit c in
  let e := ((n =? 101) || (n =? 69))%N in
  match st with
  | NStart => if (n =? 45)%N then NMinus
              else if (n =? 48)%N then NZero else if digit then NInt else NBad
  | NMinus => if (n =? 48)%N then NZero else if digit then NInt else NBad
  | NZero => if (n =? 46)%N then NDot else if e then NExp else NBad
  | NInt => if digit then NInt
            else if (n =? 46)%N then NDot else if e then NExp else NBad
  | NDot => if digit then NFrac else NBad
  | NFrac => if digit then NFrac else if e then NExp else NBad
  | NExp => if ((n =? 43) || (n =? 45))%N then NExpSign
            else if digit then NExpDigits else NBad
  | NExpSign => if digit then NExpDigits else NBad
  | NExpDigits => if digit then NExpDigits else NBad
  | NBad => NBad
  end.

Fixpoint num_run (st : numstate) (s : string) : numstate :=
  match s with
  | EmptyString => st
  | String c s' => num_run (num_step st c) s'
  end.

Definition valid_number (s : string) : bool :=
  match num_run NStart s with
  | NZero | NInt | NFrac | NExpDigits => true
  | _ => false
  end.

Definition classify (atom : string) : option token :=
  if String.eqb atom "true" then Some TTrue
  else if String.eqb atom "false" then Some TFalse
  else if String.eqb atom "null" then Some TNull
  else if valid_number atom then Some (TNum atom)
  else None.

Definition snoc (s : string) (c : ascii) : string := s +:+ chr c.

(** One step between tokens; [rec] continues on the rest of the text. *)
Definition step_normal (rec : mode -> option (list token)) (c : ascii)
  : option (list token) :=
  if is_ws c then rec MNormal
  else match punct c with
       | Some t => cons t <$> rec MNormal
       | None =>
           if (Str.code c =? 34)%N then rec (MStr "")
           else if is_atom_char c then rec (MAtom (chr c))
           else None
       end.

Fixpoint lex_go (m : mode) (s : string) : option (list token) :=
  match s with
  | EmptyString =>
      match m with
      | MNormal => Some []
      | MAtom acc => t ← classify acc; Some [t]
      | _ => None
      end
  | String c s' =>
      let rec := fun m' => lex_go m' s' in
      match m with
      | MNormal => step_normal rec c
      | MAtom acc =>
          if is_atom_char c then rec (MAtom (snoc acc c))
          else t ← classify acc; cons t <$> step_normal rec c
      | MStr acc =>
          if (Str.code c =? 34)%N then cons (TStr acc) <$> rec MNormal
          else if (Str.code c =? 92)%N then rec (MEsc acc)
          else if (Str.code c <? 32)%N then None
          else rec (MStr (snoc acc c))
      | MEsc acc =>
          if (Str.code c =? 117)%N then rec (MHex acc 3 0%N)
          else u ← unescape c; rec (MStr (snoc acc u))
      | MHex acc k v =>
          d ← hex_value c;
          let v' := (16 * v + d)%N in
          match k with
          | S k' => rec (MHex acc k' v')
          | O => if (v' <? 256)%N then rec (MStr (snoc acc (ascii_of_N v')))
                 else None  (* a code unit the model does not hold *)
          end
      end
  end.

Definition lex (s : string) : option (list token) := lex_go MNormal s.

Fixpoint parse_value (fuel : nat) (ts : list token) : option (value * list token) :=
  match fuel with
  | O => None
  | S fuel' =>
      match ts with
      | TNull :: r => Some (JNull, r)
      | TTrue :: r => Some (JBool true, r)
      | TFalse :: r => Some (JBool false, r)
      | TNum n :: r => Some (JNum n, r)
      | TStr s :: r => Some (JStr s, r)
      | TLBrack :: TRBrack :: r => Some (JArr [], r)
      | TLBrack :: r =>
          '(items, r1) ← parse_elements fuel' r; Some (JArr items, r1)
      | TLBrace :: TRBrace :: r => Some (JObj [], r)
      | TLBrace :: r =>
          '(members, r1) ← parse_members fuel' r; Some (JObj members, r1)
      | _ => None
      end
  end
with parse_elements (fuel : nat) (ts : list token) : option (list value * list token) :=
  match fuel with
  | O => None
  | S fuel' =>
      '(v, r) ← parse_value fuel' ts;
      match r with
      | TComma :: r1 =>
          '(vs, r2) ← parse_elements fuel' r1; Some (v :: vs, r2)
      | TRBrack :: r1 => Some ([v], r1)
      | _ => None
      end
  end
with parse_members (fuel : nat) (ts : list token) : option (list (string * value) * list token) :=
  match fuel with
  | O => None
  | S fuel' =>
      match ts with
      | TStr k :: TColon :: r =>
          '(v, r1) ← parse_value fuel' r;
          match r1 with
          | TComma :: r2 =>
              '(ms, r3) ← parse_members fuel' r2; Some ((k, v) :: ms, r3)
          | TRBrace :: r2 => Some ([(k, v)], r2)
          | _ => None
          end
      | _ => None
      end
  end.

(** The value of [JSON.parse(text)] when the model holds it: [None] is
    the SyntaxError, or a text with an escape for a code unit of 256 or
    more; [valid] tells the two apart. *)
Definition parse (text : string) : option value :=
  ts ← lex text;
  '(v, r) ← parse_value (S (List.length ts)) ts;
  match r with
  | [] => Some v
  | _ => None
  end.

(** *** Is the text JSON at all?

    The same walk over the text without keeping what the string
    literals hold: every escape of four hexadecimal digits is accepted,
    and a string literal gives the token of the empty string. *)

Inductive scan_mode :=
| SNormal                  (* between tokens *)
| SStr                     (* inside a string literal *)
| SEsc                     (* after a backslash *)
| SHex (k : nat)           (* in \u, [S k] digits to read *)
| SAtom (acc : string).    (* inside a number or a keyword *)

Definition scan_normal (rec : scan_mode -> option (list token)) (c : ascii)
  : option (list token) :=
  if is_ws c then rec SNormal
  else match punct c with
       | Some t => cons t <$> rec SNormal
       | None =>
           if (Str.code c =? 34)%N then rec SStr
           else if is_atom_char c then rec (SAtom (chr c))
           else None
       end.

Fixpoint scan_go (m : scan_mode) (s : string) : option (list token) :=
  match s with
  | EmptyString =>
      match m with
      | SNormal => Some []
      | SAtom acc => t ← classify acc; Some [t]
      | _ => None
      end
  | String c s' =>
      let rec := fun m' => scan_go m' s' in
      match m with
      | SNormal => scan_normal rec c
      | SAtom acc =>
          if is_atom_char c then rec (SAtom (snoc acc c))
          else t ← classify acc; cons t <$> scan_normal rec c
      | SStr =>
          if (Str.code c =? 34)%N then cons (TStr "") <$> rec SNormal
          else if (Str.code c =? 92)%N then rec SEsc
          else if (Str.code c <? 32)%N then None
          else rec SStr
      | SEsc =>
          if (Str.code c =? 117)%N then rec (SHex 3)
          else _ ← unescape c; rec SStr
      | SHex k =>
          _ ← hex_value c;
          match k with
          | S k' => rec (SHex k')
          | O => rec SStr
          end
      end
  end.

(** [valid text]: [JSON.parse(text)] does not throw. *)
Definition valid (text : string) : bool :=
  match scan_go SNormal text with
  | Some ts =>
      match parse_value (S (List.length ts)) ts with
      | Some (_, []) => true
      | _ => false
      end
  | None => false
  end.

End JSON.

(** ** The world outside the program *)

Record Exn := { exn_name : string; exn_message : string }.

Module Gist.
Record file := { content : string }.
Record data := {
  description : string;
  public : bool;
  files : gmap string file
}.
End Gist.

(** What the program asked of the outside, in order. *)
Inductive Call :=
| CExec (command : string)
| CGenerate (model contents : string)
| CPost (url : string) (body : Gist.data) (headers : list (string * string)).

(** What the outside answers, in order. *)
Inductive Event :=
| EvSelect (index : Z)          (* keyInSelect: the index chosen, -1 on cancel *)
| EvLine (text : string)        (* question: the line typed *)
| EvYN (yes : bool)             (* keyInYNStrict *)
| EvNow (iso : string)          (* new Date().toISOString() *)
| EvExec (status : Z) (writes : list (string * string))
                                (* a child process: its exit status and the
                                   files it wrote, with their new content *)
| EvGenerate (r : Exn + string) (* generateContent: rejection, or the text *)
| EvPost (r : Exn + string).    (* axios.post: rejection, or data.html_url *)

Record World := {
  fs : gmap string string;      (* path |-> content *)
  stdout : list string;         (* what was printed, oldest first *)
  script : list Event;          (* the answers still to come *)
  calls : list Call             (* processes run and requests sent *)
}.

Definition set_fs (f : gmap string string -> gmap string string) (w : World) : World :=
  {| fs := f (fs w); stdout := stdout w; script := script w; calls := calls w |}.
Definition put (line : string) (w : World) : World :=
  {| fs := fs w; stdout := stdout w ++ [line]; script := script w; calls := calls w |}.
Definition set_script (s : list Event) (w : World) : World :=
  {| fs := fs w; stdout := stdout w; script := s; calls := calls w |}.
Definition record (c : Call) (w : World) : World :=
  {| fs := fs w; stdout := stdout w; script := script w; calls := calls w ++ [c] |}.

(** ** Computations: state, exceptions, and waiting for the outside *)

Inductive Result (A : Type) :=
| Return (a : A)
| Throw (e : Exn)
| Blocked.              (* the model follows the run no further: it waits for
                          an answer the script does not hold, or it met a
                          value the model does not hold *)
Arguments Return {A} a.
Arguments Throw {A} e.
Arguments Blocked {A}.

Definition M (A : Type) : Type := World -> Result A * World.

Definition ret {A} (a : A) : M A := fun w => (Return a, w).
Definition throw {A} (e : Exn) : M A := fun w => (Throw e, w).
Definition bind {A B} (m : M A) (k : A -> M B) : M B :=
  fun w =>
    match m w with
    | (Return a, w') => k a w'
    | (Throw e, w') => (Throw e, w')
    | (Blocked, w') => (Blocked, w')
    end.

(** [try { body } catch (e) { handler }] *)
Definition try_catch {A} (body : M A) (handler : Exn -> M A) : M A :=
  fun w =>
    match body w with
    | (Throw e, w') => handler e w'
    | r => r
    end.

Declare Scope js_scope.
Delimit Scope js_scope with js.
Notation "x <- m ;; k" := (bind m (fun x => k))
  (at level 20, m at level 99, k at level 200, only parsing) : js_scope.
Notation "m ;; k" := (bind m (fun _ => k))
  (at level 100, k at level 200, only parsing, right associativity) : js_scope.
Open Scope js_scope.

Definition when_ (b : bool) (m : M unit) : M unit := if b then m else ret tt.

(** Take the next answer when it is of the expected kind. *)
Definition await {A} (pick : Event -> option A) : M A :=
  fun w =>
    match script w with
    | ev :: rest =>
        match pick ev with
        | Some a => (Return a, set_script rest w)
        | None => (Blocked, w)
        end
    | [] => (Blocked, w)
    end.

(** *** console, readline-sync *)

Definition console_log (line : string) : M unit := fun w => (Return tt, put line w).
Definition stdout_write (text : string) : M unit := fun w => (Return tt, put text w).

Definition question (query : string) : M string :=
  stdout_write query ;;
  await (fun ev => match ev with EvLine t => Some t | _ => None end).

Definition keyInYNStrict (query : string) : M bool :=
  stdout_write query ;;
  await (fun ev => match ev with EvYN b => Some b | _ => None end).

(** The index of the item chosen, or -1 when the user cancels. *)
Definition keyInSelect (items : list string) (query : string) : M Z :=
  stdout_write query ;;
  await (fun ev =>
    match ev with
    | EvSelect i =>
        if ((-1 <=? i) && (i <? Z.of_nat (List.length items)))%Z
        then Some i else None
    | _ => None
    end).

(** *** fs *)

Definition ENOENT (path : string) : Exn :=
  {| exn_name := "Error";
     exn_message := "ENOENT: no such file or directory, open '" +:+ path +:+ "'" |}.

Definition existsSync (path : string) : M bool :=
  fun w => (Return (if fs w !! path is Some _ then true else false), w).

Definition readFileSync (path : string) : M string :=
  fun w =>
    match fs w !! path with
    | Some text => (Return text, w)
    | None => (Throw (ENOENT path), w)
    end.

(** The bytes of a text in a file name: UTF-8, one byte for a code unit
    below 128 and two for the others. *)
Fixpoint byte_length (s : string) : nat :=
  match s with
  | EmptyString => 0
  | String c s' => ((if (Str.code c <? 128)%N then 1 else 2) + byte_length s')%nat
  end.

(** [path.basename(path)]: the text after the last separator; [acc] is
    what was read since the last one. *)
Fixpoint basename_from (acc path : string) : string :=
  match path with
  | EmptyString => acc
  | String c s' =>
      if (Str.code c =? 47)%N then basename_from "" s'
      else basename_from (acc +:+ String c "") s'
  end.

Definition basename (path : string) : string := basename_from "" path.

(** The longest file name, in bytes, that the file system takes. *)
Definition NAME_MAX : nat := 255.

Definition ENAMETOOLONG (path : string) : Exn :=
  {| exn_name := "Error";
     exn_message := "ENAMETOOLONG: name too long, open '" +:+ path +:+ "'" |}.

(** [fs.writeFileSync(path, data)]: the system refuses to create a file
    whose name is longer than [NAME_MAX] bytes.  The program writes
    inside directories that exist ([process.cwd()], and the output
    directory it creates when it starts); a disk that is full or may
    not be written to, and a working directory so deep that the whole
    path is too long, are not modelled. *)
Definition writeFileSync (path data : string) : M unit :=
  fun w =>
    if (NAME_MAX <? byte_length (basename path))%nat
    then (Throw (ENAMETOOLONG path), w)
    else (Return tt, set_fs (insert path data) w).

(** *** child_process, Date, the two remote services *)

Definition apply_writes (writes : list (string * string)) (files : gmap string string)
  : gmap string string :=
  foldl (fun m kv => <[fst kv := snd kv]> m) files writes.

Definition note (c : Call) : M unit := fun w => (Return tt, record c w).
Definition touch (writes : list (string * string)) : M unit :=
  fun w => (Return tt, set_fs (apply_writes writes) w).

(** [execSync(command)]: throws when the exit status is not zero. *)
Definition execSync (command : string) : M unit :=
  note (CExec command) ;;
  r <- await (fun ev => match ev with EvExec st ws => Some (st, ws) | _ => None end) ;;
  touch (snd r) ;;
  if (fst r =? 0)%Z then ret tt
  else throw {| exn_name := "Error"; exn_message := "Command failed: " +:+ command |}.

Definition Date_toISOString : M string :=
  await (fun ev => match ev with EvNow iso => Some iso | _ => None end).

Definition settle {A} (r : Exn + A) : M A :=
  match r with
  | inl e => throw e
  | inr a => ret a
  end.

(** [await ai.models.generateContent({model, contents})], then [.text] *)
Definition generateContent (model contents : string) : M string :=
  note (CGenerate model contents) ;;
  r <- await (fun ev => match ev with EvGenerate r => Some r | _ => None end) ;;
  settle r.

(** [await axios.post(url, data, {headers})], then [.data.html_url] *)
Definition axios_post (url : string) (body : Gist.data)
    (headers : list (string * string)) : M string :=
  note (CPost url body headers) ;;
  r <- await (fun ev => match ev with EvPost r => Some r | _ => None end) ;;
  settle r.

Definition TypeError (msg : string) : Exn :=
  {| exn_name := "TypeError"; exn_message := msg |}.
Definition SyntaxError (msg : string) : Exn :=
  {| exn_name := "SyntaxError"; exn_message := msg |}.

(** [JSON.parse(text)] as a computation.  The message of the engine
    names the token and its position, in words that differ from one
    release to the next; the message here stands for it.  A text that
    is JSON and escapes a code unit of 256 or more has a value that the
    model does not hold. *)
Definition JSON_parse (text : string) : M JSON.value :=
  match JSON.parse text with
  | Some v => ret v
  | None =>
      if JSON.valid text then fun w => (Blocked, w)
      else throw (SyntaxError "Unexpected token in JSON")
  end.

(** *** chalk, cli-highlight

    Styling only wraps the text in colour codes; it is rendered here as
    on a terminal without colours. *)

Module chalk.
Definition green (s : string) : string := s.
Definition yellow (s : string) : string := s.
Definition red (s : string) : string := s.
Definition blue (s : string) : string := s.
Definition cyan (s : string) : string := s.
Definition magenta (s : string) : string := s.
Definition gray (s : string) : string := s.
Definition bold (s : string) : string := s.
End chalk.

Definition cliHighlight_highlight (code language : string) : string := code.

(** *** Values at run time *)

Import JSON.

Definition NL : string := chr LF.

(** [item.key]: [None] is [undefined]. *)
Definition get (key : string) (item : value) : M (option value) :=
  match item with
  | JNull =>
      throw (TypeError ("Cannot read properties of null (reading '" +:+ key +:+ "')"))
  | JObj members => ret (assoc key (rev members))
  | _ => ret None
  end.

(** The conversion to text inside a template literal.  A number is shown
    by its lexeme. *)
Fixpoint ToString (v : value) : string :=
  match v with
  | JNull => "null"
  | JBool true => "true"
  | JBool false => "false"
  | JNum lexeme => lexeme
  | JStr s => s
  | JArr items =>
      Str.join "," (List.map (fun x => match x with JNull => "" | _ => ToString x end) items)
  | JObj _ => "[object Object]"
  end.

Definition show (v : option value) : string :=
  match v with
  | Some x => ToString x
  | None => "undefined"
  end.

(** [l.slice(start)] *)
Definition Array_slice {A} (start : Z) (l : list A) : list A :=
  let len := Z.of_nat (List.length l) in
  let k := if (start <? 0)%Z then Z.max (len + start) 0 else Z.min start len in
  drop (Z.to_nat k) l.

(** [l.forEach((item, i) => f)], from index [i] on. *)
Fixpoint forEach {A} (f : A -> nat -> M unit) (l : list A) (i : nat) : M unit :=
  match l with
  | [] => ret tt
  | x :: l' => f x i ;; forEach f l' (S i)
  end.

(** [!!s] for a string or [null] *)
Definition truthy (s : option string) : bool :=
  match s with
  | Some t => negb (String.eqb t "")
  | None => false
  end.

(** [v === s] for [v] a string or [undefined] *)
Definition is_ (v : option string) (s : string) : bool :=
  match v with
  | Some t => String.eqb t s
  | None => false
  end.

(** ** The program *)

Section Charisma.

(** [process.cwd()] when the program starts (an absolute path, "/" for
    the root), and [process.platform]. *)
Variable cwd : string.
Variable platform : string.

(** [path.join(dir, name)] and [path.resolve('./' + name)], for a [name]
    without separators or dot segments. *)
Definition path_join (dir name : string) : string :=
  if String.eqb dir "/" then "/" +:+ name else dir +:+ "/" +:+ name.

Definition historyPath : string := path_join cwd "charisma_history.json".
Definition outputDir : string := path_join cwd "generated".

Definition languageSelector : M string :=
  let options := languages in
  index <- keyInSelect options "Select language:" ;;
  ret (if (index =? -1)%Z then "JavaScript"
       else default "" (options !! Z.to_nat index)).

Definition getPrompt : M string :=
  line <- question (chalk.green "‹ Enter Prompt: ") ;;
  ret (Str.trim line).

Definition getFilename (base ext_ : string) : string :=
  let safe := Str.toLowerCase (Str.replace re_not_alnum_i "_" base) in
  path_join outputDir (safe +:+ ext_).

Definition checkFormatter (lang : string) : M (option string) :=
  let formatter := assoc lang formatters in
  try_catch
    (f <- match formatter with
          | Some f => ret f
          | None => throw (TypeError "Cannot read properties of undefined (reading 'cmd')")
          end ;;
     execSync (Str.first_word (cmd f) +:+ " --version") ;;
     ret (Some (cmd f)))
    (fun _ => ret None).

Definition generateCode (prompt lang : string) : M string :=
  generateContent "gemini-2.0-flash"
    ("generate code in " +:+ lang +:+ " based on this prompt: " +:+ prompt +:+
     " and return just the raw code with no backticks").

Definition writeCode (filename code : string) : M unit :=
  writeFileSync filename code ;;
  console_log (chalk.bold (chalk.green ("Saved to " +:+ filename))).

Definition formatCode (cmd_ file : string) : M unit :=
  try_catch
    (execSync (cmd_ +:+ " " +:+ file) ;;
     console_log (chalk.cyan "Code formatted"))
    (fun _ => console_log (chalk.red "Formatter error")).

Definition previewCode (code lang : string) : M unit :=
  let highlight := cliHighlight_highlight code (Str.toLowerCase lang) in
  console_log (chalk.blue (NL +:+ "› Preview:" +:+ NL)) ;;
  console_log highlight.

Definition copyToClipboard (code : string) : M unit :=
  try_catch
    (let cmd_ := if String.eqb platform "darwin" then "pbcopy"
                 else "xclip -selection clipboard" in
     execSync ("echo " +:+ chr DQUOTE +:+ code +:+ chr DQUOTE +:+ " | " +:+ cmd_) ;;
     console_log (chalk.magenta "Copied to clipboard"))
    (fun _ => ret tt).

(** The object literal [{ timestamp, prompt, lang, file }]. *)
Definition entry (timestamp prompt lang file : string) : value :=
  JObj [ ("timestamp", JStr timestamp); ("prompt", JStr prompt);
         ("lang", JStr lang); ("file", JStr file) ].

Definition saveHistory (prompt code lang file : string) : M unit :=
  present <- existsSync historyPath ;;
  history <- (if present
              then text <- readFileSync historyPath ;; JSON_parse text
              else ret (JArr [])) ;;
  match history with
  | JNull => throw (TypeError "Cannot read properties of null (reading 'push')")
  | _ =>
      timestamp <- Date_toISOString ;;
      match history with
      | JArr items =>
          let history := JArr (items ++ [entry timestamp prompt lang file]) in
          writeFileSync historyPath (JSON.stringify history 2)
      | _ => throw (TypeError "history.push is not a function")
      end
  end.

(** One line of the history view. *)
Definition history_line (item : value) (i : nat) : M unit :=
  lang <- get "lang" item ;;
  prompt <- get "prompt" item ;;
  file <- get "file" item ;;
  console_log (pretty (i + 1)%nat +:+ ". [" +:+ show lang +:+ "] → " +:+
               chalk.yellow (show prompt) +:+ " (" +:+ show file +:+ ")").

Definition viewHistory : M unit :=
  present <- existsSync historyPath ;;
  if negb present then console_log (chalk.yellow "No history yet.")
  else
    text <- readFileSync historyPath ;;
    history <- JSON_parse text ;;
    console_log (chalk.bold (NL +:+ "› History:")) ;;
    match history with
    | JArr items => forEach history_line (Array_slice (-5) items) 0
    | JStr _ => throw (TypeError "history.slice(...).forEach is not a function")
    | JNull => throw (TypeError "Cannot read properties of null (reading 'slice')")
    | _ => throw (TypeError "history.slice is not a function")
    end.

Definition clearScreen : M unit := stdout_write (String "027"%char "c").

Definition createGist (filename code token description : string) (isPrivate : bool)
  : M unit :=
  let gistData :=
    {| Gist.description :=
         if String.eqb description "" then "Generated Code Gist" else description;
       Gist.public := negb isPrivate;
       Gist.files := {[ filename := {| Gist.content := code |} ]} |} in
  try_catch
    (html_url <- axios_post "https://api.github.com/gists" gistData
                   [("Authorization", "token " +:+ token)] ;;
     console_log (chalk.green ("Gist created: " +:+ html_url)))
    (fun error =>
       console_log (chalk.red ("Failed to create Gist: " +:+ exn_message error))).

Inductive Flow := Break | Continue.

Definition menu : list string :=
  ["New Code"; "View History"; "Create GitHub Gist"; "Exit"].

(** The branch of the loop body that generates code. *)
Definition newCode : M unit :=
  prompt <- getPrompt ;;
  lang <- languageSelector ;;
  formatter <- match assoc lang formatters with
               | Some f => ret f
               | None => throw (TypeError "Cannot read properties of undefined (reading 'ext')")
               end ;;
  let ext_ := ext formatter in
  let filename := getFilename prompt ext_ in
  console_log (chalk.blue "Generating code...") ;;
  try_catch
    (code <- generateCode prompt lang ;;
     preview <- keyInYNStrict "Preview code in terminal?" ;;
     when_ preview (previewCode code lang) ;;
     writeCode filename code ;;
     formatterCmd <- checkFormatter lang ;;
     when_ (truthy formatterCmd)
       (let c := default "" formatterCmd in
        shouldFormat <- keyInYNStrict ("Format with " +:+ Str.first_word c +:+ "?") ;;
        when_ shouldFormat (formatCode c filename)) ;;
     shouldCopy <- keyInYNStrict "Copy code to clipboard?" ;;
     when_ shouldCopy (copyToClipboard code) ;;
     saveHistory prompt code lang filename ;;
     question (chalk.gray (NL +:+ "Done. Press Enter to return...")) ;;
     ret tt)
    (fun err =>
       console_log (chalk.red (NL +:+ "Something went wrong:") +:+ " " +:+ exn_message err) ;;
       question (chalk.gray (NL +:+ "Press Enter to return...")) ;;
       ret tt).

(** One turn of [while (true)] in [main]. *)
Definition iteration : M Flow :=
  clearScreen ;;
  console_log (chalk.bold (NL +:+ "Charisma")) ;;
  console_log (chalk.bold (chalk.green "Coding Agent")) ;;
  choice <- keyInSelect menu "Select option:" ;;
  let chosen := menu !! Z.to_nat choice in
  if (choice =? -1)%Z || is_ chosen "Exit" then ret Break
  else if is_ chosen "View History" then
    viewHistory ;;
    question (chalk.gray (NL +:+ "Press Enter to return...")) ;;
    ret Continue
  else if is_ chosen "Create GitHub Gist" then
    token <- question (chalk.yellow "Enter your GitHub token: ") ;;
    description <- question (chalk.yellow "Enter a description for the Gist (optional): ") ;;
    isPrivate <- keyInYNStrict "Should the Gist be private?" ;;
    filename <- question (chalk.green "Enter Gist filename (with extension): ") ;;
    code <- readFileSync filename ;;
    createGist filename code token description isPrivate ;;
    ret Continue
  else
    newCode ;;
    ret Continue.

(** [main]: the loop runs until a turn breaks out of it, throws, or waits
    for an answer.  Every turn takes an answer from the script, so
    [fuel] turns are enough for a script of less than [fuel] answers. *)
Fixpoint main_loop (fuel : nat) : M unit :=
  match fuel with
  | O => fun w => (Blocked, w)
  | S fuel' =>
      flow <- iteration ;;
      match flow with
      | Break => ret tt
      | Continue => main_loop fuel'
      end
  end.

Definition main : M unit :=
  fun w => main_loop (S (List.length (script w))) w.

End Charisma.

(** ** The filename of a prompt of any code units

    The lines typed in the model hold code units below 256; a prompt of
    the program may hold any.  [Units.getFilename] is [getFilename] on
    such a prompt.  The class of the regular expression holds every
    code unit that is not an ASCII letter or digit, so what [replace]
    keeps is below 128, and [toLowerCase] meets nothing else. *)

Module Units.

Definition between (lo hi u : N) : bool := ((lo <=? u) && (u <=? hi))%N.

(** [/[^a-z0-9]/gi] on a code unit of any value. *)
Definition re_not_alnum_i (u : N) : bool :=
  negb (between 97 122 u || between 65 90 u || between 48 57 u).

(** [s.replace(re, by)], for a class [re] that holds every code unit of
    256 or more. *)
Fixpoint replace (class : N -> bool) (by_ : string) (s : list N) : string :=
  match s with
  | [] => EmptyString
  | u :: s' =>
      (if class u then by_ else String (ascii_of_N u) EmptyString) +:+ replace class by_ s'
  end.

Definition getFilename (cwd : string) (base : list N) (ext_ : string) : string :=
  let safe := Str.toLowerCase (replace re_not_alnum_i "_" base) in
  path_join (outputDir cwd) (safe +:+ ext_).

End Units.

(** * The vocabulary of the properties *)

(** ** Filenames as the specification words them *)

(** The normal form in the words of the specification: lower-case the
    prompt, then replace every code unit outside [a-z0-9] (the source
    replaces first and lower-cases after). *)
Definition spec_normalize (prompt : string) : string :=
  Str.replace re_not_alnum "_" (Str.toLowerCase prompt).



(** *** Prompts of any code units *)

(** [toLowerCase] of one code unit, where it is known here: below 256
    as [Str.lower_char] has it; the Kelvin sign U+212A gives k; the
    capital I with a dot above, U+0130, gives i and the combining dot
    U+0307. *)
Definition lower_unit (u : N) : option (list N) :=
  if (u <? 256)%N then Some [Str.code (Str.lower_char (ascii_of_N u))]
  else if (u =? 8490)%N then Some [107%N]
  else if (u =? 304)%N then Some [105%N; 775%N]
  else None.

Fixpoint toLowerCase_units (s : list N) : option (list N) :=
  match s with
  | [] => Some []
  | u :: s' => l ← lower_unit u; r ← toLowerCase_units s'; Some (l ++ r)
  end.

(** [/[^a-z0-9]/g] on a code unit of any value. *)
Definition re_not_alnum_unit (u : N) : bool :=
  negb (Units.between 97 122 u || Units.between 48 57 u).

(** The normal form in the words of the specification, on a prompt of
    any code units: lower-case the prompt, then replace. *)
Definition spec_normalize_units (prompt : list N) : option string :=
  l ← toLowerCase_units prompt; Some (Units.replace re_not_alnum_unit "_" l).

(** The normal form one code unit at a time: an ASCII letter in lower
    case, a digit as it is, an underscore for any other code unit. *)
Definition normal_unit (u : N) : ascii :=
  if Units.between 65 90 u then ascii_of_N (u + 32)
  else if Units.between 97 122 u || Units.between 48 57 u then ascii_of_N u
  else "_"%char.

Fixpoint normalize_units (s : list N) : string :=
  match s with
  | [] => EmptyString
  | u :: s' => String (normal_unit u) (normalize_units s')
  end.

(** The lower case of an ASCII letter; any other code unit as it is. *)
Definition lower_ascii_unit (u : N) : N :=
  if Units.between 65 90 u then (u + 32)%N else u.

(** ** Worlds and what a computation does to them *)

(** Print several lines. *)
Definition puts (lines : list string) (w : World) : World :=
  foldl (fun w l => put l w) w lines.

(** The terminal and the list of calls only grow, and the answers are
    taken from the front of the script. *)
Definition grows {A} (m : M A) : Prop :=
  forall w, stdout w `prefix_of` stdout (snd (m w)) /\
            calls w `prefix_of` calls (snd (m w)) /\
            script (snd (m w)) `suffix_of` script w.

(** [m] never ends by throwing. *)
Definition never_throws {A} (m : M A) : Prop :=
  forall w e, fst (m w) <> Throw e.

(** [m] only prints: the files, the calls and the script stay. *)
Definition only_prints {A} (m : M A) : Prop :=
  forall w, fs (snd (m w)) = fs w /\
            calls (snd (m w)) = calls w /\
            script (snd (m w)) = script w.

(** The writes [ws] of a process leave the file [path] alone. *)
Definition spares (path : string) (ws : list (string * string)) : Prop :=
  path ∉ (fst <$> ws).

(** The code units of a derived base name: [a-z0-9_]. *)
Definition is_safe (c : ascii) : bool :=
  Str.is_lower c || Str.is_digit c || (Str.code c =? 95)%N.

(** A code unit that takes one byte in a file name and is no
    separator. *)
Definition is_plain (c : ascii) : bool :=
  (Str.code c <? 128)%N && negb (Str.code c =? 47)%N.

(** ** History logs *)

(** A history entry, as the specification has it. *)
Module Entry.
Record t := { timestamp : string; prompt : string; lang : string; file : string }.
End Entry.

(** The JSON object of an entry: its four fields, each a string, under
    the keys of the history file. *)
Definition value_of (e : Entry.t) : value :=
  JObj [ ("timestamp", JStr (Entry.timestamp e));
         ("prompt", JStr (Entry.prompt e));
         ("lang", JStr (Entry.lang e));
         ("file", JStr (Entry.file e)) ].

(** The array of a whole log. *)
Definition log_value (h : list Entry.t) : value := JArr (value_of <$> h).

(** The log that the backing file holds: the empty log when the file is
    absent, else the log its text parses to. *)
Definition holds_log (cwd : string) (files : gmap string string) (h : list Entry.t) : Prop :=
  match files !! historyPath cwd with
  | None => h = []
  | Some text => JSON.parse text = Some (log_value h)
  end.

(** The entries that [recent(n)] is specified to return. *)
Definition recent (n : nat) (h : list Entry.t) : list Entry.t :=
  drop (List.length h - n) h.

(** One line of the view, for the entry shown at index [i]. *)
Definition line_text (e : Entry.t) (i : nat) : string :=
  pretty (i + 1)%nat +:+ ". [" +:+ Entry.lang e +:+ "] → " +:+
  Entry.prompt e +:+ " (" +:+ Entry.file e +:+ ")".

(** The lines for [es], numbered from [i + 1]. *)
Definition lines_from (i : nat) (es : list Entry.t) : list string :=
  imap (fun k e => line_text e (i + k)) es.

(** What the view prints under its header for the entries [es]. *)
Definition view_lines (es : list Entry.t) : list string := lines_from 0 es.

(** A sequence of appends, one per entry; the clock gives the
    timestamps. *)
Fixpoint appendAll (cwd : string) (code_of : Entry.t -> string) (es : list Entry.t) : M unit :=
  match es with
  | [] => ret tt
  | e :: es' =>
      saveHistory cwd (Entry.prompt e) (code_of e) (Entry.lang e) (Entry.file e) ;;
      appendAll cwd code_of es'
  end.

(** The answers of the clock that stamp the entries [es]. *)
Definition clock (es : list Entry.t) : list Event :=
  (fun e => EvNow (Entry.timestamp e)) <$> es.

(** ** The tokens of a log *)

(** What the lexer makes of the text of an entry, and of the entries
    of a log with the commas between them. *)
Definition entry_tokens (e : Entry.t) : list token :=
  [ TLBrace;
    TStr "timestamp"; TColon; TStr (Entry.timestamp e); TComma;
    TStr "prompt"; TColon; TStr (Entry.prompt e); TComma;
    TStr "lang"; TColon; TStr (Entry.lang e); TComma;
    TStr "file"; TColon; TStr (Entry.file e);
    TRBrace ].

Fixpoint elems_tokens (h : list Entry.t) : list token :=
  match h with
  | [] => []
  | [e] => entry_tokens e
  | e :: h' => entry_tokens e ++ TComma :: elems_tokens h'
  end.

(** [lexes text toks]: in front of any text that the lexer accepts,
    [text] adds the tokens [toks]. *)
Definition lexes (text : string) (toks : list token) : Prop :=
  forall rest ts,
    lex_go MNormal rest = Some ts ->
    lex_go MNormal (text +:+ rest) = Some (toks ++ ts).

(** ** Reading a text without its strings *)

(** What [scan_go] remembers of a mode of [lex_go], and of a token. *)
Definition erase (m : mode) : scan_mode :=
  match m with
  | MNormal => SNormal
  | MStr _ => SStr
  | MEsc _ => SEsc
  | MHex _ k _ => SHex k
  | MAtom acc => SAtom acc
  end.

Definition blank_token (t : token) : token :=
  match t with
  | TStr _ => TStr ""
  | _ => t
  end.

(** ** Sample worlds *)

(** A world in which nothing has happened yet. *)
Definition blank : World := {| fs := ∅; stdout := []; script := []; calls := [] |}.



(** The user asks for new code in Python and the generator rejects. *)
Definition failed_generation_script : list Event :=
  [EvSelect 0; EvLine "fizz buzz"; EvSelect 2;
   EvGenerate (inl {| exn_name := "Error"; exn_message := "fetch failed" |});
   EvLine ""].

(** The user asks for a gist of a file that does not exist. *)
Definition gist_of_missing_file : World :=
  {| fs := ∅; stdout := [];
     script := [EvSelect 2; EvLine "ghp_0123"; EvLine ""; EvYN false;
                EvLine "missing.txt"; EvSelect 3];
     calls := [] |}.

(** The history file holds JSON that is not an array. *)
Definition object_history_world : World :=
  {| fs := {[ historyPath "/home/user" := "{}" ]}; stdout := []; script := [];
     calls := [] |}.

(** The user asks for a gist of a file that exists; the service answers. *)
Definition gist_of_present_file : World :=
  {| fs := {[ "notes.txt" := "hello" ]}; stdout := [];
     script := [EvSelect 2; EvLine "ghp_0123"; EvLine ""; EvYN false;
                EvLine "notes.txt"; EvPost (inr "https://gist.github.com/0123")];
     calls := [] |}.

(** The user asks for the history while the history file is not JSON. *)
Definition view_of_corrupt_history : World :=
  {| fs := {[ historyPath "/home/user" := "not json" ]}; stdout := [];
     script := [EvSelect 1; EvLine ""; EvSelect 3];
     calls := [] |}.

(** A generation of Python for " Fizz Buzz ": no formatter installed,
    clipboard declined. *)
Definition generation_script : list Event :=
  [EvLine " Fizz Buzz "; EvSelect 2; EvGenerate (inr "print(1)"); EvYN false;
   EvExec 127 []; EvYN false; EvNow "2024-05-01T10:00:00.000Z"; EvLine ""].

(** A session: generate, view the history, leave. *)
Definition session_script : list Event :=
  EvSelect 0 :: generation_script ++ [EvSelect 1; EvLine ""; EvSelect 3].

(** A generation of Go: the formatter and the clipboard command fail. *)
Definition failing_tools_script : list Event :=
  [EvLine "server"; EvSelect 5; EvGenerate (inr "package main"); EvYN false;
   EvExec 0 []; EvYN true; EvExec 2 []; EvYN true; EvExec 1 [];
   EvNow "2024-05-01T10:00:00.000Z"; EvLine ""].

(** A generation of Python while the history file is not JSON. *)
Definition corrupt_history_script : list Event :=
  [EvLine "fizz"; EvSelect 2; EvGenerate (inr "pass"); EvYN false;
   EvExec 127 []; EvYN false; EvLine ""].

(** One entry, and six. *)
Definition first_entry_time : string := "2024-05-01T10:00:00.000Z".

Definition first_entry : Entry.t :=
  {| Entry.timestamp := first_entry_time; Entry.prompt := "fizz buzz";
     Entry.lang := "Python"; Entry.file := "/home/user/generated/fizz_buzz.py" |}.

Definition numbered (n : string) : Entry.t :=
  {| Entry.timestamp := "2024-05-0" +:+ n; Entry.prompt := "task " +:+ n;
     Entry.lang := "Go"; Entry.file := "/home/user/generated/task_" +:+ n +:+ ".go" |}.

Definition six_entries : list Entry.t :=
  numbered <$> ["1"; "2"; "3"; "4"; "5"; "6"].

Definition six_entries_world : World :=
  {| fs := {[ historyPath "/home/user" := JSON.stringify (log_value six_entries) 2 ]};
     stdout := []; script := []; calls := [] |}.

(** * Lemmas *)

(** ** Strings *)

Lemma sapp_cons c s t : String c s +:+ t = String c (s +:+ t).
Proof. reflexivity. Qed.

Lemma sapp_nil_l s : "" +:+ s = s.
Proof. reflexivity. Qed.

Lemma sapp_nil_r s : s +:+ "" = s.
Proof. induction s as [|c s IH]; [done|]. by rewrite sapp_cons, IH. Qed.

Lemma sapp_assoc s t u : (s +:+ t) +:+ u = s +:+ (t +:+ u).
Proof. induction s as [|c s IH]; [done|]. by rewrite !sapp_cons, IH. Qed.

Lemma sapp_length s t : String.length (s +:+ t) = (String.length s + String.length t)%nat.
Proof. induction s as [|c s IH]; [done|]. rewrite sapp_cons. simpl. by rewrite IH. Qed.

Ltac each_char c := destruct c as [[] [] [] [] [] [] [] []].

(** Lower-casing a unit and testing it against [[a-z0-9]] is the test
    that ignores case. *)
Lemma class_of_lower c : re_not_alnum (Str.lower_char c) = re_not_alnum_i c.
Proof. each_char c; reflexivity. Qed.

Lemma toLowerCase_app s t :
  Str.toLowerCase (s +:+ t) = Str.toLowerCase s +:+ Str.toLowerCase t.
Proof.
  induction s as [|c s IH]; [done|].
  rewrite sapp_cons. unfold Str.toLowerCase in *. simpl. by rewrite IH, sapp_cons.
Qed.

Lemma replace_then_lower s :
  Str.toLowerCase (Str.replace re_not_alnum_i "_" s) = spec_normalize s.
Proof.
  unfold spec_normalize.
  induction s as [|c s IH]; [done|].
  cbn [Str.replace]. rewrite toLowerCase_app, IH.
  change (Str.toLowerCase (String c s)) with (String (Str.lower_char c) (Str.toLowerCase s)).
  cbn [Str.replace]. rewrite class_of_lower.
  by destruct (re_not_alnum_i c).
Qed.


(** ** Paths *)

Lemma outputDir_not_root cwd : String.eqb (outputDir cwd) "/" = false.
Proof.
  apply String.eqb_neq. intros H. apply (f_equal String.length) in H.
  unfold outputDir, path_join in H.
  destruct (String.eqb cwd "/"); rewrite !sapp_length in H; simpl in H; lia.
Qed.

Lemma path_join_outputDir cwd name :
  path_join (outputDir cwd) name = outputDir cwd +:+ "/" +:+ name.
Proof. unfold path_join at 1. by rewrite outputDir_not_root. Qed.

Lemma basename_from_plain name : forall acc,
  Str.forallb is_plain name = true -> basename_from acc name = acc +:+ name.
Proof.
  induction name as [|c name IH]; intros acc H.
  - by rewrite sapp_nil_r.
  - cbn [Str.forallb] in H. apply andb_prop in H as [Hc Hname].
    cbn [basename_from]. unfold is_plain in Hc. apply andb_prop in Hc as [_ Hc].
    apply negb_true_iff in Hc. rewrite Hc, IH by done.
    by rewrite sapp_assoc.
Qed.

Lemma basename_from_join dir name : forall acc,
  Str.forallb is_plain name = true -> basename_from acc (dir +:+ "/" +:+ name) = name.
Proof.
  induction dir as [|c dir IH]; intros acc H.
  - change ("" +:+ "/" +:+ name) with (String "/" name). cbn [basename_from].
    change (Str.code "/" =? 47)%N with true. cbv iota.
    by rewrite basename_from_plain.
  - rewrite sapp_cons. cbn [basename_from]. destruct (Str.code c =? 47)%N; by apply IH.
Qed.

(** The last component of [dir/name]. *)
Lemma basename_join dir name :
  Str.forallb is_plain name = true -> basename (dir +:+ "/" +:+ name) = name.
Proof. apply basename_from_join. Qed.

Lemma basename_path_join dir name :
  Str.forallb is_plain name = true -> basename (path_join dir name) = name.
Proof.
  intros H. unfold path_join. destruct (String.eqb dir "/").
  - by apply (basename_join "").
  - by apply basename_join.
Qed.

Lemma byte_length_plain name :
  Str.forallb is_plain name = true -> byte_length name = String.length name.
Proof.
  induction name as [|c name IH]; [done|].
  cbn [Str.forallb byte_length String.length]. intros [Hc Hname]%andb_prop.
  unfold is_plain in Hc. apply andb_prop in Hc as [Hc _]. rewrite Hc, IH by done. lia.
Qed.

Lemma forallb_app p s t :
  Str.forallb p (s +:+ t) = Str.forallb p s && Str.forallb p t.
Proof.
  induction s as [|c s IH]; [done|].
  rewrite sapp_cons. cbn [Str.forallb]. by rewrite IH, andb_assoc.
Qed.

(** A derived base name: as long as the prompt, one byte for each code
    unit, no separator. *)
Lemma derived_plain s :
  Str.forallb is_plain (Str.toLowerCase (Str.replace re_not_alnum_i "_" s)) = true.
Proof.
  induction s as [|c s IH]; [done|].
  cbn [Str.replace]. rewrite toLowerCase_app, forallb_app, IH, andb_true_r.
  clear IH. each_char c; reflexivity.
Qed.

Lemma derived_length s :
  String.length (Str.toLowerCase (Str.replace re_not_alnum_i "_" s)) = String.length s.
Proof.
  induction s as [|c s IH]; [done|].
  cbn [Str.replace]. rewrite toLowerCase_app, sapp_length, IH.
  destruct (re_not_alnum_i c); reflexivity.
Qed.

(** The extensions of the registry. *)
Lemma registry_ext lang f :
  assoc lang formatters = Some f ->
  Str.forallb is_plain (ext f) = true /\ (String.length (ext f) <= 5)%nat.
Proof.
  unfold formatters. intros H.
  repeat (cbn [assoc] in H;
          destruct (String.eqb lang _); [injection H as <-; split; [reflexivity|simpl; lia]|]).
  done.
Qed.

(** ** Worlds *)

Lemma stdout_puts lines w : stdout (puts lines w) = stdout w ++ lines.
Proof.
  revert w. induction lines as [|l lines IH]; intros w.
  - simpl. by rewrite app_nil_r.
  - change (puts (l :: lines) w) with (puts lines (put l w)).
    rewrite IH. simpl. by rewrite <- app_assoc.
Qed.

Lemma fs_puts lines w : fs (puts lines w) = fs w.
Proof. revert w. induction lines as [|l lines IH]; intros w; [done|]. apply (IH (put l w)). Qed.

Lemma script_puts lines w : script (puts lines w) = script w.
Proof. revert w. induction lines as [|l lines IH]; intros w; [done|]. apply (IH (put l w)). Qed.

Lemma calls_puts lines w : calls (puts lines w) = calls w.
Proof. revert w. induction lines as [|l lines IH]; intros w; [done|]. apply (IH (put l w)). Qed.

Lemma select_cases (i : Z) :
  (-1 <= i < 7)%Z ->
  i = (-1)%Z \/ i = 0%Z \/ i = 1%Z \/ i = 2%Z \/ i = 3%Z \/ i = 4%Z \/ i = 5%Z \/ i = 6%Z.
Proof. lia. Qed.

Ltac each_language H :=
  let C := fresh in
  pose proof (select_cases _ H) as C; clear H;
  destruct C as [-> | [-> | [-> | [-> | [-> | [-> | [-> | ->]]]]]]].

(** ** What a computation may do to the world *)

Lemma grows_ret {A} (a : A) : grows (ret a).
Proof. by intros w. Qed.

Lemma grows_throw {A} (e : Exn) : grows (@throw A e).
Proof. by intros w. Qed.

Lemma grows_bind {A B} (m : M A) (k : A -> M B) :
  grows m -> (forall a, grows (k a)) -> grows (bind m k).
Proof.
  intros Hm Hk w. unfold bind. specialize (Hm w).
  destruct (m w) as [[a|e|] w1]; simpl in *; [|done..].
  destruct (Hk a w1) as (?&?&?), Hm as (?&?&?). repeat split; by etrans.
Qed.

Lemma grows_try_catch {A} (m : M A) (h : Exn -> M A) :
  grows m -> (forall e, grows (h e)) -> grows (try_catch m h).
Proof.
  intros Hm Hh w. unfold try_catch. specialize (Hm w).
  destruct (m w) as [[a|e|] w1]; simpl in *; [done| |done].
  destruct (Hh e w1) as (?&?&?), Hm as (?&?&?). repeat split; by etrans.
Qed.

Lemma grows_when (b : bool) (m : M unit) : grows m -> grows (when_ b m).
Proof. destruct b; [done|]. intros _. apply grows_ret. Qed.

Lemma grows_await {A} (pick : Event -> option A) : grows (await pick).
Proof.
  intros w. unfold await.
  destruct (script w) as [|ev rest] eqn:E.
  { cbn [snd]. by rewrite E. }
  destruct (pick ev); cbn [snd set_script stdout calls script]; rewrite ?E; [|done].
  repeat split; [done..|]. by apply suffix_cons_r.
Qed.

Lemma grows_console_log line : grows (console_log line).
Proof. intros w. simpl. repeat split; [by apply prefix_app_r | done..]. Qed.

Lemma grows_stdout_write text : grows (stdout_write text).
Proof. apply grows_console_log. Qed.

Lemma grows_note c : grows (note c).
Proof. intros w. simpl. repeat split; [done | by apply prefix_app_r | done]. Qed.

Lemma grows_touch ws : grows (touch ws).
Proof. by intros w. Qed.

Lemma grows_existsSync path : grows (existsSync path).
Proof. by intros w. Qed.

Lemma grows_readFileSync path : grows (readFileSync path).
Proof. intros w. unfold readFileSync. by destruct (fs w !! path). Qed.

Lemma grows_writeFileSync path data : grows (writeFileSync path data).
Proof. intros w. unfold writeFileSync. by destruct (_ <? _)%nat. Qed.

Lemma grows_settle {A} (r : Exn + A) : grows (settle r).
Proof. destruct r; [apply grows_throw | apply grows_ret]. Qed.

Lemma grows_JSON_parse text : grows (JSON_parse text).
Proof.
  unfold JSON_parse. destruct (JSON.parse text); [apply grows_ret|].
  destruct (JSON.valid text); [done | apply grows_throw].
Qed.

Create HintDb grows.
#[local] Hint Resolve grows_ret grows_throw grows_bind grows_try_catch grows_when
  grows_await grows_console_log grows_stdout_write grows_note grows_touch
  grows_existsSync grows_readFileSync grows_writeFileSync grows_settle
  grows_JSON_parse : grows.

Ltac grows_step :=
  match goal with
  | |- forall _, _ => intros
  | |- grows (if ?b then _ else _) => destruct b
  | |- grows (match ?x with _ => _ end) => destruct x
  | |- grows (let _ := _ in _) => cbv zeta
  | |- grows (bind _ _) => apply grows_bind
  | |- grows (try_catch _ _) => apply grows_try_catch
  | |- grows (when_ _ _) => apply grows_when
  | |- grows _ => solve [auto with grows]
  end.
Ltac grows := repeat grows_step.

Lemma grows_execSync command : grows (execSync command).
Proof. unfold execSync. grows. Qed.

Lemma grows_question query : grows (question query).
Proof. unfold question. grows. Qed.

Lemma grows_keyInYNStrict query : grows (keyInYNStrict query).
Proof. unfold keyInYNStrict. grows. Qed.

Lemma grows_Date : grows Date_toISOString.
Proof. apply grows_await. Qed.

#[local] Hint Resolve grows_execSync grows_question grows_keyInYNStrict grows_Date : grows.

Lemma grows_checkFormatter lang : grows (checkFormatter lang).
Proof. unfold checkFormatter. grows. Qed.

Lemma grows_formatCode c file : grows (formatCode c file).
Proof. unfold formatCode. grows. Qed.

Lemma grows_copyToClipboard platform code : grows (copyToClipboard platform code).
Proof. unfold copyToClipboard. grows. Qed.

Lemma grows_saveHistory cwd prompt code lang file :
  grows (saveHistory cwd prompt code lang file).
Proof. unfold saveHistory. grows. Qed.

#[local] Hint Resolve grows_checkFormatter grows_formatCode grows_copyToClipboard
  grows_saveHistory : grows.

(** ** Running a computation one step at a time *)

Lemma bind_run {A B} (m : M A) (k : A -> M B) w a w1 :
  m w = (Return a, w1) -> bind m k w = k a w1.
Proof. intros H. unfold bind. by rewrite H. Qed.

Lemma try_bind_run {A B} (m : M A) (k : A -> M B) (h : Exn -> M B) w a w1 :
  m w = (Return a, w1) -> try_catch (bind m k) h w = try_catch (k a) h w1.
Proof. intros H. unfold try_catch, bind. by rewrite H. Qed.



Lemma grows_script {A} (m : M A) w :
  grows m -> (List.length (script (snd (m w))) <= List.length (script w))%nat.
Proof. intros Hm. destruct (Hm w) as (_ & _ & H). by apply suffix_length. Qed.

(** ** The loop and its fuel *)

Lemma grows_keyInSelect items query : grows (keyInSelect items query).
Proof. unfold keyInSelect. grows. Qed.

Lemma grows_generateContent model contents : grows (generateContent model contents).
Proof. unfold generateContent. grows. Qed.

Lemma grows_axios_post url body headers : grows (axios_post url body headers).
Proof. unfold axios_post. grows. Qed.

Lemma grows_get key item : grows (get key item).
Proof. unfold get. grows. Qed.

#[local] Hint Resolve grows_keyInSelect grows_generateContent grows_axios_post
  grows_get : grows.

Lemma grows_history_line item i : grows (history_line item i).
Proof. unfold history_line. grows. Qed.

Lemma grows_forEach {A} (f : A -> nat -> M unit) l :
  (forall x i, grows (f x i)) -> forall i, grows (forEach f l i).
Proof.
  intros Hf. induction l as [|x l IH]; intros i; cbn [forEach]; [apply grows_ret|].
  apply grows_bind; [apply Hf | intros _; apply IH].
Qed.

Lemma grows_viewHistory cwd : grows (viewHistory cwd).
Proof.
  unfold viewHistory. grows.
  apply grows_forEach. apply grows_history_line.
Qed.

Lemma grows_createGist filename code token description isPrivate :
  grows (createGist filename code token description isPrivate).
Proof. unfold createGist. grows. Qed.

Lemma grows_newCode cwd platform : grows (newCode cwd platform).
Proof.
  unfold newCode, getPrompt, languageSelector, generateCode, writeCode, previewCode.
  grows.
Qed.

(** [consumes m]: when [m] comes to its end, it has taken an answer. *)
Lemma consumes_await {A} (pick : Event -> option A) w a w' :
  await pick w = (Return a, w') ->
  (List.length (script w') < List.length (script w))%nat.
Proof.
  unfold await. destruct (script w) as [|ev rest] eqn:E; [done|].
  destruct (pick ev); [|done]. intros [= _ <-]. simpl. lia.
Qed.

Lemma consumes_bind_l {A B} (m : M A) (k : A -> M B) :
  (forall w a w', m w = (Return a, w') ->
     (List.length (script w') < List.length (script w))%nat) ->
  (forall a, grows (k a)) ->
  forall w b w', bind m k w = (Return b, w') ->
    (List.length (script w') < List.length (script w))%nat.
Proof.
  intros Hm Hk w b w'. unfold bind.
  destruct (m w) as [[a|e|] w1] eqn:E; [|done..].
  intros H. apply Hm in E. pose proof (grows_script (k a) w1 (Hk a)) as G.
  rewrite H in G. simpl in G. lia.
Qed.

Lemma consumes_bind_r {A B} (m : M A) (k : A -> M B) :
  grows m ->
  (forall a w b w', k a w = (Return b, w') ->
     (List.length (script w') < List.length (script w))%nat) ->
  forall w b w', bind m k w = (Return b, w') ->
    (List.length (script w') < List.length (script w))%nat.
Proof.
  intros Hm Hk w b w'. unfold bind.
  pose proof (grows_script m w Hm) as G.
  destruct (m w) as [[a|e|] w1] eqn:E; [|done..].
  intros H. apply Hk in H. simpl in G. lia.
Qed.

(** A turn that comes to its end has taken an answer from the script. *)
Lemma iteration_consumes cwd platform w flow w' :
  iteration cwd platform w = (Return flow, w') ->
  (List.length (script w') < List.length (script w))%nat.
Proof.
  revert w flow w'. unfold iteration.
  apply consumes_bind_r; [unfold clearScreen; grows | intros _].
  apply consumes_bind_r; [grows | intros _].
  apply consumes_bind_r; [grows | intros _].
  apply consumes_bind_l.
  - unfold keyInSelect. apply consumes_bind_r; [grows | intros _].
    intros w a w'. apply consumes_await.
  - intros choice. cbv zeta.
    grows; auto using grows_viewHistory, grows_createGist, grows_newCode with grows.
Qed.

(** Fuel beyond the length of the script changes nothing: [main] is the
    loop itself. *)
Lemma main_loop_fuel cwd platform n : forall w,
  (List.length (script w) < n)%nat ->
  main_loop cwd platform (S n) w = main_loop cwd platform n w.
Proof.
  induction n as [|n IH]; intros w Hn; [lia|].
  cbn [main_loop]. unfold bind at 1 3.
  destruct (iteration cwd platform w) as [[[]|e|] w'] eqn:E; try reflexivity.
  apply iteration_consumes in E. apply IH. lia.
Qed.

Lemma main_loop_more_fuel cwd platform k : forall n w,
  (List.length (script w) < n)%nat ->
  main_loop cwd platform (k + n) w = main_loop cwd platform n w.
Proof.
  induction k as [|k IH]; intros n w Hn; [done|].
  change (S k + n)%nat with (S (k + n)).
  rewrite main_loop_fuel by lia. by apply IH.
Qed.

Lemma main_is_the_loop cwd platform n w :
  (List.length (script w) < n)%nat ->
  main_loop cwd platform n w = main cwd platform w.
Proof.
  intros Hn. unfold main.
  replace n with ((n - S (List.length (script w))) + S (List.length (script w)))%nat by lia.
  apply main_loop_more_fuel. lia.
Qed.

(** ** The history file as a text *)

Lemma lexes_app a ta b tb : lexes a ta -> lexes b tb -> lexes (a +:+ b) (ta ++ tb).
Proof.
  intros Ha Hb rest ts H. rewrite sapp_assoc, <- app_assoc.
  apply Ha. by apply Hb.
Qed.

Lemma lex_escape_char c acc t :
  lex_go (MStr acc) (escape_char c +:+ t) = lex_go (MStr (snoc acc c)) t.
Proof. each_char c; reflexivity. Qed.

Lemma lex_escape s acc rest :
  lex_go (MStr acc) (escape s +:+ String DQUOTE rest)
  = cons (TStr (acc +:+ s)) <$> lex_go MNormal rest.
Proof.
  revert acc. induction s as [|c s IH]; intros acc.
  - by rewrite sapp_nil_r.
  - cbn [escape]. rewrite sapp_assoc, lex_escape_char, IH.
    unfold snoc, chr. by rewrite sapp_assoc.
Qed.

Lemma lexes_quote s : lexes (quote s) [TStr s].
Proof.
  intros rest ts H. unfold quote, chr.
  rewrite sapp_cons, sapp_assoc, sapp_cons, sapp_nil_l.
  change (lex_go (MStr "") (escape s +:+ String DQUOTE rest) = Some ([TStr s] ++ ts)).
  rewrite lex_escape, H. reflexivity.
Qed.

Lemma lexes_skip a b tb : lexes a [] -> lexes b tb -> lexes (a +:+ b) tb.
Proof. apply (lexes_app a [] b tb). Qed.

Lemma lexes_emit a t b tb : lexes a [t] -> lexes b tb -> lexes (a +:+ b) (t :: tb).
Proof. apply (lexes_app a [t] b tb). Qed.

Lemma lexes_nil : lexes "" [].
Proof. by intros rest ts H. Qed.

Lemma lexes_ws c s toks : is_ws c = true -> lexes s toks -> lexes (String c s) toks.
Proof.
  intros Hc Hs rest ts H. rewrite sapp_cons. cbn [lex_go]. unfold step_normal.
  rewrite Hc. by apply Hs.
Qed.

Lemma lexes_punct c t s toks :
  is_ws c = false -> punct c = Some t -> lexes s toks -> lexes (String c s) (t :: toks).
Proof.
  intros Hc Ht Hs rest ts H. rewrite sapp_cons. cbn [lex_go]. unfold step_normal.
  rewrite Hc, Ht. by rewrite (Hs rest ts H).
Qed.

(** A piece of punctuation and white space, or a string literal. *)
Ltac lexes_piece :=
  first [ apply lexes_quote
        | repeat first [ apply lexes_nil
                       | apply lexes_ws; [reflexivity|]
                       | apply lexes_punct; [reflexivity|reflexivity|] ] ].

Ltac lexes_chain :=
  unfold chr; rewrite ?sapp_assoc;
  repeat first [ apply lexes_emit; [solve [lexes_piece]|]
               | apply lexes_skip; [solve [lexes_piece]|] ];
  solve [lexes_piece].

Lemma lexes_entry e :
  lexes (serialize "  " "  " (value_of e)) (entry_tokens e).
Proof.
  unfold value_of, entry_tokens. cbn -[quote String.append].
  lexes_chain.
Qed.

Lemma lexes_entries e h :
  lexes (Str.join ("," +:+ chr LF +:+ "  ")
           (List.map (serialize "  " "  ") (value_of <$> (e :: h))))
        (elems_tokens (e :: h)).
Proof.
  revert e. induction h as [|e' h IH]; intros e.
  - apply lexes_entry.
  - change (lexes (serialize "  " "  " (value_of e) +:+ ("," +:+ chr LF +:+ "  ") +:+
                   Str.join ("," +:+ chr LF +:+ "  ")
                     (List.map (serialize "  " "  ") (value_of <$> (e' :: h))))
                  (entry_tokens e ++ TComma :: elems_tokens (e' :: h))).
    apply lexes_app; [apply lexes_entry|].
    apply lexes_emit; [|apply IH]. lexes_chain.
Qed.

Lemma lex_log h :
  lex (stringify (log_value h) 2)
  = Some (TLBrack :: elems_tokens h ++ [TRBrack]).
Proof.
  destruct h as [|e h]; [reflexivity|].
  assert (H : lexes (stringify (log_value (e :: h)) 2)
                    (TLBrack :: elems_tokens (e :: h) ++ [TRBrack])).
  { change (stringify (log_value (e :: h)) 2) with
      ("[" +:+ chr LF +:+ "  " +:+
       Str.join ("," +:+ chr LF +:+ "  ")
         (List.map (serialize "  " "  ") (value_of <$> (e :: h))) +:+
       chr LF +:+ "" +:+ "]").
    apply lexes_emit; [lexes_piece|].
    apply lexes_skip; [unfold chr; lexes_piece|].
    apply lexes_skip; [lexes_piece|].
    apply lexes_app; [apply lexes_entries|].
    lexes_chain. }
  specialize (H "" [] eq_refl).
  rewrite sapp_nil_r, app_nil_r in H. exact H.
Qed.

(** The parser on the tokens of a log. *)
Lemma parse_entry e fuel r :
  (6 <= fuel)%nat ->
  parse_value fuel (entry_tokens e ++ r) = Some (value_of e, r).
Proof.
  intros H. do 6 (destruct fuel as [|fuel]; [lia|]). reflexivity.
Qed.

Lemma parse_entries h fuel r :
  h <> [] ->
  (List.length h + 6 <= fuel)%nat ->
  parse_elements fuel (elems_tokens h ++ TRBrack :: r) = Some (value_of <$> h, r).
Proof.
  revert fuel. induction h as [|e h IH]; intros fuel Hne Hfuel; [done|].
  destruct fuel as [|fuel]; [simpl in Hfuel; lia|].
  cbn [parse_elements].
  destruct h as [|e' h].
  - cbn [elems_tokens]. rewrite parse_entry by (simpl in Hfuel; lia). reflexivity.
  - change (elems_tokens (e :: e' :: h)) with
      (entry_tokens e ++ TComma :: elems_tokens (e' :: h)).
    rewrite <- app_assoc. rewrite parse_entry by (simpl in Hfuel; lia).
    cbn [mbind option_bind app]. rewrite IH; [reflexivity|done|simpl in *; lia].
Qed.

Lemma elems_tokens_length e h :
  (List.length (e :: h) + 16 <= List.length (elems_tokens (e :: h)))%nat.
Proof.
  revert e. induction h as [|e' h IH]; intros e; [simpl; lia|].
  change (elems_tokens (e :: e' :: h)) with
    (entry_tokens e ++ TComma :: elems_tokens (e' :: h)).
  rewrite length_app. specialize (IH e'). simpl in *. lia.
Qed.

Lemma elems_tokens_head e h : exists ts, elems_tokens (e :: h) = TLBrace :: ts.
Proof. destruct h; eexists; reflexivity. Qed.

Lemma parse_log_tokens h fuel :
  (List.length h + 8 <= fuel)%nat ->
  parse_value fuel (TLBrack :: elems_tokens h ++ [TRBrack]) = Some (log_value h, []).
Proof.
  intros Hfuel. destruct fuel as [|fuel]; [lia|].
  destruct h as [|e h]; [reflexivity|].
  destruct (elems_tokens_head e h) as [ts Hts].
  cbn [parse_value]. rewrite Hts. cbn [app].
  change (TLBrace :: ts ++ [TRBrack]) with ((TLBrace :: ts) ++ [TRBrack]).
  rewrite <- Hts, parse_entries; [reflexivity|done|].
  simpl in *. lia.
Qed.

(** What [saveHistory] writes for a log is read back as that log. *)
Lemma parse_stringify_log h :
  JSON.parse (JSON.stringify (log_value h) 2) = Some (log_value h).
Proof.
  destruct h as [|e h]; [reflexivity|].
  unfold JSON.parse. rewrite lex_log. cbn [mbind option_bind].
  rewrite parse_log_tokens; [reflexivity|].
  assert (Hlen := elems_tokens_length e h).
  cbn [List.length] in *. rewrite length_app.
  generalize dependent (List.length (elems_tokens (e :: h))).
  intros n Hn. cbn [List.length]. lia.
Qed.

(** ** Texts that are JSON *)

Lemma classify_blank acc t : classify acc = Some t -> blank_token t = t.
Proof.
  unfold classify. repeat case_match; intros [= <-]; reflexivity.
Qed.

Lemma punct_blank c t : punct c = Some t -> blank_token t = t.
Proof.
  unfold punct. repeat case_match; intros [= <-]; reflexivity.
Qed.

Lemma scan_step rec srec c ts :
  (forall m ts', rec m = Some ts' -> srec (erase m) = Some (blank_token <$> ts')) ->
  step_normal rec c = Some ts ->
  scan_normal srec c = Some (blank_token <$> ts).
Proof.
  intros Hrec. unfold step_normal, scan_normal.
  destruct (is_ws c); [apply (Hrec MNormal)|].
  destruct (punct c) as [t|] eqn:Ht.
  - intros (ts' & Hts' & ->)%fmap_Some.
    change (srec SNormal) with (srec (erase MNormal)). rewrite (Hrec MNormal _ Hts'). cbn.
    by rewrite (punct_blank c t Ht).
  - destruct (Str.code c =? 34)%N; [apply (Hrec (MStr ""))|].
    destruct (is_atom_char c); [apply (Hrec (MAtom _))|done].
Qed.

Lemma lex_scan s : forall m ts,
  lex_go m s = Some ts -> scan_go (erase m) s = Some (blank_token <$> ts).
Proof.
  induction s as [|c s IH]; intros m ts.
  - destruct m; cbn; try done.
    + by intros [= <-].
    + destruct (classify acc) as [t|] eqn:Ht; cbn; [|done].
      intros [= <-]. cbn. by rewrite (classify_blank acc t Ht).
  - destruct m; cbn [lex_go scan_go erase].
    + apply scan_step. intros m. apply IH.
    + destruct (Str.code c =? 34)%N.
      { intros (ts' & Hts' & ->)%fmap_Some.
        change SNormal with (erase MNormal). by rewrite (IH MNormal _ Hts'). }
      destruct (Str.code c =? 92)%N; [apply (IH (MEsc _))|].
      destruct (Str.code c <? 32)%N; [done|apply (IH (MStr _))].
    + destruct (Str.code c =? 117)%N; [apply (IH (MHex _ _ _))|].
      destruct (unescape c); cbn; [apply (IH (MStr _))|done].
    + destruct (hex_value c); cbn; [|done].
      destruct k; [|apply (IH (MHex _ _ _))].
      destruct (_ <? _)%N; [apply (IH (MStr _))|done].
    + destruct (is_atom_char c); [apply (IH (MAtom _))|].
      destruct (classify acc) as [t|] eqn:Ht; cbn; [|done].
      intros (ts' & Hts' & ->)%fmap_Some.
      erewrite scan_step; [|intros m; apply IH|exact Hts'].
      cbn. by rewrite (classify_blank acc t Ht).
Qed.

Lemma parse_blank fuel :
  (forall ts v r, parse_value fuel ts = Some (v, r) ->
     exists v', parse_value fuel (blank_token <$> ts) = Some (v', blank_token <$> r)) /\
  (forall ts vs r, parse_elements fuel ts = Some (vs, r) ->
     exists vs', parse_elements fuel (blank_token <$> ts) = Some (vs', blank_token <$> r)) /\
  (forall ts ms r, parse_members fuel ts = Some (ms, r) ->
     exists ms', parse_members fuel (blank_token <$> ts) = Some (ms', blank_token <$> r)).
Proof.
  induction fuel as [|fuel (IHv & IHe & IHm)]; [done|].
  split; [|split].
  - intros ts v r. cbn [parse_value].
    destruct ts as [|t ts]; [done|].
    destruct t; try done; cbn [fmap list_fmap blank_token]; try (intros [= <- <-]; eauto).
    + destruct ts as [|t ts]; [by destruct fuel as [|[]]|].
      destruct t; cbn [fmap list_fmap blank_token]; try (intros [= <- <-]; by eauto).
      all: intros ([ms r1] & H & E)%bind_Some; cbn in E; injection E as <- <-.
      all: apply IHm in H as [ms' H]; cbn [fmap list_fmap blank_token] in H |- *.
      all: rewrite H; cbn; eauto.
    + destruct ts as [|t ts]; [by destruct fuel as [|[]]|].
      destruct t; cbn [fmap list_fmap blank_token]; try (intros [= <- <-]; by eauto).
      all: intros ([ms r1] & H & E)%bind_Some; cbn in E; injection E as <- <-.
      all: apply IHe in H as [ms' H]; cbn [fmap list_fmap blank_token] in H |- *.
      all: rewrite H; cbn; eauto.
  - intros ts vs r. cbn [parse_elements].
    intros ([v r0] & Hv & H)%bind_Some. apply IHv in Hv as [v' Hv]. rewrite Hv. cbn in H |- *.
    destruct r0 as [|t r0]; [done|]. destruct t; try done; cbn [fmap list_fmap blank_token].
    + injection H as <- <-. eauto.
    + apply bind_Some in H as ([vs1 r2] & H & E); cbn in E; injection E as <- <-.
      apply IHe in H as [vs' H]. rewrite H. cbn. eauto.
  - intros ts ms r. cbn [parse_members].
    destruct ts as [|t ts]; [done|]. destruct t; try done.
    destruct ts as [|t ts]; [done|]. destruct t; try done.
    cbn [fmap list_fmap blank_token].
    intros ([v r0] & Hv & H)%bind_Some. apply IHv in Hv as [v' Hv]. rewrite Hv. cbn in H |- *.
    destruct r0 as [|t r0]; [done|]. destruct t; try done; cbn [fmap list_fmap blank_token].
    + injection H as <- <-. eauto.
    + apply bind_Some in H as ([ms1 r2] & H & E); cbn in E; injection E as <- <-.
      apply IHm in H as [ms' H]. rewrite H. cbn. eauto.
Qed.

(** A text with a value is JSON. *)
Lemma parse_valid text v : JSON.parse text = Some v -> JSON.valid text = true.
Proof.
  unfold JSON.parse, JSON.valid, lex.
  intros (ts & Hts & H)%bind_Some.
  apply bind_Some in H as ([v0 r] & Hv & H). destruct r; [|done].
  apply lex_scan in Hts. cbn [erase] in Hts. rewrite Hts, length_fmap.
  destruct (parse_blank (S (List.length ts))) as (Hb & _).
  apply Hb in Hv as [v' Hv]. by rewrite Hv.
Qed.

Lemma invalid_parse text : JSON.valid text = false -> JSON.parse text = None.
Proof.
  intros H. destruct (JSON.parse text) as [v|] eqn:E; [|done].
  apply parse_valid in E. congruence.
Qed.

(** ** Appending to the history file and viewing it *)

(** A write succeeds when the file name is not too long. *)
Lemma writeFileSync_run path data w :
  (byte_length (basename path) <= NAME_MAX)%nat ->
  writeFileSync path data w = (Return tt, set_fs (insert path data) w).
Proof.
  intros H. unfold writeFileSync.
  destruct (Nat.ltb_spec NAME_MAX (byte_length (basename path))); [lia|done].
Qed.

(** The history file always takes a write. *)
Lemma write_history cwd data w :
  writeFileSync (historyPath cwd) data w
  = (Return tt, set_fs (insert (historyPath cwd) data) w).
Proof.
  apply writeFileSync_run. unfold historyPath.
  rewrite basename_path_join by reflexivity. unfold NAME_MAX. simpl. lia.
Qed.

(** The name of a derived file: the derived base name and the
    extension, as many bytes as the prompt and the extension have code
    units. *)
Lemma derived_name_bytes cwd lang f base :
  assoc lang formatters = Some f ->
  byte_length (basename (getFilename cwd base (ext f)))
  = (String.length base + String.length (ext f))%nat.
Proof.
  intros Hf. destruct (registry_ext lang f Hf) as [Hext _].
  assert (Hname : Str.forallb is_plain
            (Str.toLowerCase (Str.replace re_not_alnum_i "_" base) +:+ ext f) = true).
  { by rewrite forallb_app, derived_plain, Hext. }
  unfold getFilename. rewrite basename_path_join by done.
  rewrite byte_length_plain by done. by rewrite sapp_length, derived_length.
Qed.

Lemma saveHistory_run cwd w prompt code lang file now rest old :
  holds_log cwd (fs w) old ->
  script w = EvNow now :: rest ->
  let new := {| Entry.timestamp := now; Entry.prompt := prompt;
                Entry.lang := lang; Entry.file := file |} in
  saveHistory cwd prompt code lang file w
  = (Return tt,
     set_fs (insert (historyPath cwd) (JSON.stringify (log_value (old ++ [new])) 2))
            (set_script rest w)).
Proof.
  intros Hold Hs new. destruct w as [files out scr cs]. simpl in Hs, Hold. subst scr.
  unfold holds_log in Hold. unfold saveHistory.
  destruct (files !! historyPath cwd) as [text|] eqn:Hfile.
  - erewrite (bind_run (existsSync _) _ _ true)
      by (unfold existsSync; cbn [fs]; by rewrite Hfile).
    erewrite (bind_run (bind (readFileSync _) _) _ _ (log_value old)).
    2:{ unfold bind, readFileSync, JSON_parse. cbn [fs]. by rewrite Hfile, Hold. }
    cbn [log_value]. erewrite bind_run by reflexivity.
    rewrite write_history.
    unfold new, log_value. rewrite fmap_app. reflexivity.
  - subst old.
    erewrite (bind_run (existsSync _) _ _ false)
      by (unfold existsSync; cbn [fs]; by rewrite Hfile).
    erewrite bind_run by reflexivity.
    cbv beta iota. erewrite bind_run by reflexivity.
    rewrite write_history.
    reflexivity.
Qed.

Lemma holds_log_insert cwd files h :
  holds_log cwd (<[historyPath cwd := JSON.stringify (log_value h) 2]> files) h.
Proof. unfold holds_log. rewrite lookup_insert_eq. apply parse_stringify_log. Qed.

Lemma appendAll_run cwd code_of es : forall w old rest,
  holds_log cwd (fs w) old ->
  script w = clock es ++ rest ->
  exists w',
    appendAll cwd code_of es w = (Return tt, w') /\
    holds_log cwd (fs w') (old ++ es) /\
    (es <> [] -> is_Some (fs w' !! historyPath cwd)) /\
    (es = [] -> fs w' = fs w) /\
    stdout w' = stdout w /\ script w' = rest /\ calls w' = calls w.
Proof.
  induction es as [|e es IH]; intros w old rest Hold Hs.
  - exists w. rewrite app_nil_r. by destruct w.
  - cbn [appendAll]. destruct e as [ts p l f]. cbn [Entry.prompt Entry.lang Entry.file].
    erewrite bind_run;
      [|exact (saveHistory_run cwd w p _ l f ts (clock es ++ rest) old Hold Hs)].
    edestruct (IH (set_fs (insert (historyPath cwd)
                    (JSON.stringify (log_value (old ++ [Entry.Build_t ts p l f])) 2))
                    (set_script (clock es ++ rest) w)) (old ++ [Entry.Build_t ts p l f]) rest)
      as (w' & Hrun & Hlog & Hsome & Hnil & Hout & Hscr & Hcalls).
    { apply holds_log_insert. }
    { reflexivity. }
    exists w'. split; [exact Hrun|]. rewrite <- app_assoc in Hlog.
    split; [exact Hlog|]. split.
    { intros _. destruct es as [|e' es].
      - rewrite Hnil by done. simpl. rewrite lookup_insert_eq. eauto.
      - by apply Hsome. }
    split; [done|]. by rewrite Hout, Hscr, Hcalls.
Qed.

Lemma history_line_run e i w :
  history_line (value_of e) i w = (Return tt, put (line_text e i) w).
Proof. reflexivity. Qed.

Lemma lines_from_cons i e es :
  lines_from i (e :: es) = line_text e i :: lines_from (S i) es.
Proof.
  unfold lines_from. cbn [imap]. f_equal.
  - f_equal. lia.
  - apply imap_ext. intros k x _. simpl. f_equal. lia.
Qed.

Lemma forEach_lines es : forall i w,
  forEach history_line (value_of <$> es) i w = (Return tt, puts (lines_from i es) w).
Proof.
  induction es as [|e es IH]; intros i w; [reflexivity|].
  cbn [fmap list_fmap forEach]. erewrite bind_run by apply history_line_run.
  by rewrite IH, lines_from_cons.
Qed.

Lemma slice_last_five (h : list Entry.t) :
  Array_slice (-5) (value_of <$> h) = value_of <$> recent 5 h.
Proof.
  unfold Array_slice, recent. rewrite length_fmap.
  change (-5 <? 0)%Z with true. cbn match.
  rewrite <- fmap_drop. f_equal. f_equal. lia.
Qed.

Lemma viewHistory_run cwd w text h :
  fs w !! historyPath cwd = Some text ->
  JSON.parse text = Some (log_value h) ->
  viewHistory cwd w
  = (Return tt, puts ((NL +:+ "› History:") :: view_lines (recent 5 h)) w).
Proof.
  intros Hfile Hparse.
  unfold viewHistory, bind, existsSync, readFileSync, JSON_parse.
  rewrite Hfile. cbn [negb]. rewrite Hfile, Hparse.
  cbn [ret console_log fst snd log_value].
  rewrite slice_last_five, forEach_lines. reflexivity.
Qed.

Lemma viewHistory_absent cwd w :
  fs w !! historyPath cwd = None ->
  viewHistory cwd w = (Return tt, put "No history yet." w).
Proof.
  intros Hfile. unfold viewHistory, bind, existsSync. by rewrite Hfile.
Qed.

Lemma recent_length n (h : list Entry.t) :
  List.length (recent n h) = Nat.min n (List.length h).
Proof. unfold recent. rewrite length_drop. lia. Qed.

Lemma lines_from_length i es : List.length (lines_from i es) = List.length es.
Proof. unfold lines_from. apply length_imap. Qed.

(** ** More on filenames *)

Lemma safe_char c :
  is_safe (Str.lower_char (if re_not_alnum_i c then "_"%char else c)) = true.
Proof. each_char c; reflexivity. Qed.

Lemma normal_form_safe s :
  Str.forallb is_safe (Str.toLowerCase (Str.replace re_not_alnum_i "_" s)) = true /\
  String.length (Str.toLowerCase (Str.replace re_not_alnum_i "_" s)) = String.length s.
Proof.
  induction s as [|c s [IH1 IH2]]; [done|].
  cbn [Str.replace]. rewrite toLowerCase_app.
  assert (E : Str.toLowerCase (if re_not_alnum_i c then "_" else String c "")
              = String (Str.lower_char (if re_not_alnum_i c then "_"%char else c)) "")
    by (by destruct (re_not_alnum_i c)).
  rewrite E, sapp_cons, sapp_nil_l. cbn [Str.forallb String.length].
  by rewrite safe_char, IH1, IH2.
Qed.

Lemma sapp_inj_l p s t : p +:+ s = p +:+ t -> s = t.
Proof. induction p as [|c p IH]; [done|]. rewrite !sapp_cons. intros [= H]. by apply IH. Qed.

Lemma getFilename_not_history cwd base e : getFilename cwd base e <> historyPath cwd.
Proof.
  unfold getFilename. rewrite path_join_outputDir.
  unfold outputDir, historyPath, path_join.
  destruct (String.eqb cwd "/").
  - rewrite !sapp_cons. discriminate.
  - rewrite !sapp_assoc. intros H%sapp_inj_l. revert H. rewrite !sapp_cons. discriminate.
Qed.

(** ** Prompts of any code units *)

(** A code unit is the code of an [ascii], or 256 or more. *)
Lemma unit_cases (u : N) : (exists c, u = Str.code c) \/ (256 <= u)%N.
Proof.
  destruct (N.ltb_spec u 256) as [H|H]; [left|by right].
  exists (ascii_of_N u). unfold Str.code. by rewrite N_ascii_embedding.
Qed.

Lemma between_large lo hi u :
  (hi < 256)%N -> (256 <= u)%N -> Units.between lo hi u = false.
Proof.
  intros Hhi Hu. unfold Units.between. apply andb_false_intro2. apply N.leb_gt. lia.
Qed.

Lemma large_unit u :
  (256 <= u)%N ->
  Units.between 97 122 u = false /\ Units.between 65 90 u = false /\
  Units.between 48 57 u = false.
Proof. intros H. repeat split; by apply between_large. Qed.

Lemma units_replace s :
  Units.replace Units.re_not_alnum_i "_" (Str.units s) = Str.replace re_not_alnum_i "_" s.
Proof.
  induction s as [|c s IH]; [done|].
  cbn [Str.units Units.replace Str.replace]. rewrite IH.
  change (Units.re_not_alnum_i (Str.code c)) with (re_not_alnum_i c).
  unfold Str.code. by rewrite ascii_N_embedding.
Qed.

(** On the lines of the model the two derivations are one. *)
Lemma units_getFilename cwd base e :
  Units.getFilename cwd (Str.units base) e = getFilename cwd base e.
Proof. unfold Units.getFilename, getFilename. by rewrite units_replace. Qed.

Lemma normal_unit_replace u :
  Str.toLowerCase
    (if Units.re_not_alnum_i u then "_" else String (ascii_of_N u) EmptyString)
  = String (normal_unit u) EmptyString.
Proof.
  destruct (unit_cases u) as [[c ->]|H].
  - each_char c; reflexivity.
  - destruct (large_unit u H) as (H1 & H2 & H3).
    unfold Units.re_not_alnum_i, normal_unit. by rewrite H1, H2, H3.
Qed.

Lemma replace_units_normal s :
  Str.toLowerCase (Units.replace Units.re_not_alnum_i "_" s) = normalize_units s.
Proof.
  induction s as [|u s IH]; [done|].
  cbn [Units.replace normalize_units].
  by rewrite toLowerCase_app, IH, normal_unit_replace.
Qed.

Lemma lower_then_replace_unit c :
  (if re_not_alnum_unit (Str.code (Str.lower_char c)) then "_"
   else String (ascii_of_N (Str.code (Str.lower_char c))) EmptyString)
  = String (normal_unit (Str.code c)) EmptyString.
Proof. each_char c; reflexivity. Qed.

Lemma spec_normalize_below_256 s :
  Forall (fun u => (u < 256)%N) s ->
  exists l, toLowerCase_units s = Some l /\
            Units.replace re_not_alnum_unit "_" l = normalize_units s.
Proof.
  induction 1 as [|u s Hu _ (l & Hl & IH)]; [by exists []|].
  destruct (unit_cases u) as [[c ->]|H]; [|lia].
  cbn [toLowerCase_units]. unfold lower_unit.
  destruct (N.ltb_spec (Str.code c) 256); [|lia].
  rewrite Hl. cbn [mbind option_bind].
  eexists; split; [reflexivity|].
  cbn [app Units.replace normalize_units]. rewrite IH.
  replace (ascii_of_N (Str.code c)) with c by (unfold Str.code; by rewrite ascii_N_embedding).
  by rewrite lower_then_replace_unit.
Qed.

Lemma normal_unit_lower_ascii u : normal_unit (lower_ascii_unit u) = normal_unit u.
Proof.
  destruct (unit_cases u) as [[c ->]|H].
  - each_char c; reflexivity.
  - destruct (large_unit u H) as (H1 & H2 & H3).
    unfold lower_ascii_unit. by rewrite H2.
Qed.

Lemma normal_unit_twice u : normal_unit (Str.code (normal_unit u)) = normal_unit u.
Proof.
  destruct (unit_cases u) as [[c ->]|H].
  - each_char c; reflexivity.
  - destruct (large_unit u H) as (H1 & H2 & H3).
    assert (E : normal_unit u = "_"%char) by (unfold normal_unit; by rewrite H1, H2, H3).
    by rewrite E.
Qed.

Lemma normalize_lower_ascii s :
  normalize_units (lower_ascii_unit <$> s) = normalize_units s.
Proof.
  induction s as [|u s IH]; [done|].
  cbn [fmap list_fmap normalize_units]. f_equal; [apply normal_unit_lower_ascii|apply IH].
Qed.

Lemma normalize_twice s :
  normalize_units (Str.units (normalize_units s)) = normalize_units s.
Proof.
  induction s as [|u s IH]; [done|].
  cbn [normalize_units Str.units]. by rewrite normal_unit_twice, IH.
Qed.

(** ** Files that a process leaves alone *)

Lemma apply_writes_spares path ws files :
  spares path ws -> apply_writes ws files !! path = files !! path.
Proof.
  unfold spares, apply_writes. revert files.
  induction ws as [|[k v] ws IH]; intros files H; [done|].
  cbn [foldl fst snd]. rewrite fmap_cons, not_elem_of_cons in H. destruct H as [Hk Hws].
  rewrite IH by done. by apply lookup_insert_ne.
Qed.

Lemma holds_log_other cwd path text files h :
  path <> historyPath cwd ->
  holds_log cwd files h -> holds_log cwd (<[path := text]> files) h.
Proof. intros Hne. unfold holds_log. by rewrite lookup_insert_ne. Qed.

Lemma holds_log_writes cwd ws files h :
  spares (historyPath cwd) ws ->
  holds_log cwd files h -> holds_log cwd (apply_writes ws files) h.
Proof. intros Hs. unfold holds_log. by rewrite apply_writes_spares. Qed.

(** ** Processes and requests, one at a time *)

Lemma execSync_run command w st ws rest :
  script w = EvExec st ws :: rest ->
  execSync command w
  = (if (st =? 0)%Z then Return tt
     else Throw {| exn_name := "Error"; exn_message := "Command failed: " +:+ command |},
     set_fs (apply_writes ws) (set_script rest (record (CExec command) w))).
Proof.
  intros Hs. destruct w as [files out scr cs]. simpl in Hs. subst scr.
  unfold execSync, bind, note, await, touch. cbn.
  by destruct (st =? 0)%Z.
Qed.

Lemma checkFormatter_run lang f w st ws rest :
  assoc lang formatters = Some f ->
  script w = EvExec st ws :: rest ->
  checkFormatter lang w
  = (Return (if (st =? 0)%Z then Some (cmd f) else None),
     set_fs (apply_writes ws)
       (set_script rest (record (CExec (Str.first_word (cmd f) +:+ " --version")) w))).
Proof.
  intros Hf Hs. unfold checkFormatter, try_catch. rewrite Hf.
  erewrite bind_run by reflexivity.
  unfold bind. rewrite (execSync_run _ _ st ws rest Hs).
  by destruct (st =? 0)%Z.
Qed.

Lemma formatCode_run c file w st ws rest :
  script w = EvExec st ws :: rest ->
  formatCode c file w
  = (Return tt,
     put (if (st =? 0)%Z then "Code formatted" else "Formatter error")
       (set_fs (apply_writes ws)
          (set_script rest (record (CExec (c +:+ " " +:+ file)) w)))).
Proof.
  intros Hs. unfold formatCode, try_catch, bind.
  rewrite (execSync_run _ _ st ws rest Hs). by destruct (st =? 0)%Z.
Qed.

Lemma copyToClipboard_run platform code w st ws rest :
  script w = EvExec st ws :: rest ->
  copyToClipboard platform code w
  = (Return tt,
     (if (st =? 0)%Z then put "Copied to clipboard" else id)
       (set_fs (apply_writes ws)
          (set_script rest
             (record (CExec ("echo " +:+ chr DQUOTE +:+ code +:+ chr DQUOTE +:+ " | " +:+
                             (if String.eqb platform "darwin" then "pbcopy"
                              else "xclip -selection clipboard"))) w)))).
Proof.
  intros Hs. unfold copyToClipboard, try_catch, bind. cbv zeta.
  rewrite (execSync_run _ _ st ws rest Hs). by destruct (st =? 0)%Z.
Qed.

Lemma createGist_run filename code token description isPrivate w r rest :
  script w = EvPost r :: rest ->
  createGist filename code token description isPrivate w
  = (Return tt,
     put (match r with
          | inr html_url => "Gist created: " +:+ html_url
          | inl error => "Failed to create Gist: " +:+ exn_message error
          end)
       (set_script rest
          (record (CPost "https://api.github.com/gists"
                     {| Gist.description :=
                          if String.eqb description "" then "Generated Code Gist"
                          else description;
                        Gist.public := negb isPrivate;
                        Gist.files := {[ filename := {| Gist.content := code |} ]} |}
                     [("Authorization", "token " +:+ token)]) w))).
Proof.
  intros Hs. destruct w as [files out scr cs]. simpl in Hs. subst scr.
  by destruct r.
Qed.

Lemma languageSelector_run w i lang rest :
  (0 <= i)%Z ->
  languages !! Z.to_nat i = Some lang ->
  script w = EvSelect i :: rest ->
  languageSelector w = (Return lang, set_script rest (put "Select language:" w)).
Proof.
  intros Hi Hlang Hs. destruct w as [files out scr cs]. simpl in Hs. subst scr.
  assert (Hr : (-1 <= i < 7)%Z).
  { apply lookup_lt_Some in Hlang. simpl in Hlang. lia. }
  each_language Hr; try lia; simpl in Hlang; injection Hlang as <-; reflexivity.
Qed.

Ltac run_step :=
  first [ erewrite try_bind_run by reflexivity
        | erewrite bind_run by reflexivity ].

(** ** The turn that generates *)

(** The steps of [newCode] up to the call of the generator. *)
Lemma newCode_begins w line i lang f rest :
  (0 <= i)%Z ->
  languages !! Z.to_nat i = Some lang ->
  assoc lang formatters = Some f ->
  script w = EvLine line :: EvSelect i :: rest ->
  forall (body : string -> string -> Formatter -> M unit) (handler : Exn -> M unit),
    (prompt <- getPrompt ;;
     lang <- languageSelector ;;
     formatter <- match assoc lang formatters with
                  | Some f => ret f
                  | None => throw (TypeError "Cannot read properties of undefined (reading 'ext')")
                  end ;;
     console_log (chalk.blue "Generating code...") ;;
     try_catch (body prompt lang formatter) handler) w
    = try_catch (body (Str.trim line) lang f) handler
        (set_script rest
           (puts ["‹ Enter Prompt: "; "Select language:"; "Generating code..."] w)).
Proof.
  intros Hi Hlang Hf Hs body handler.
  destruct w as [files out scr cs]. simpl in Hs. subst scr.
  erewrite bind_run by reflexivity.
  erewrite bind_run by (by apply (languageSelector_run _ i lang rest)).
  rewrite Hf. erewrite bind_run by reflexivity.
  erewrite bind_run by reflexivity. reflexivity.
Qed.

(** Writing the generated text. *)
Lemma writeCode_run filename code w :
  (byte_length (basename filename) <= NAME_MAX)%nat ->
  writeCode filename code w
  = (Return tt, put ("Saved to " +:+ filename) (set_fs (insert filename code) w)).
Proof. intros H. unfold writeCode, bind. by rewrite writeFileSync_run. Qed.

(** The turn that generates, when the probe of the formatter fails and
    the clipboard is declined. *)
Lemma newCode_success_run
    cwd platform w line i lang f code preview st ws now enter rest old :
  (0 <= i)%Z ->
  languages !! Z.to_nat i = Some lang ->
  assoc lang formatters = Some f ->
  (byte_length (basename (getFilename cwd (Str.trim line) (ext f))) <= NAME_MAX)%nat ->
  st <> 0%Z ->
  spares (historyPath cwd) ws ->
  spares (getFilename cwd (Str.trim line) (ext f)) ws ->
  holds_log cwd (fs w) old ->
  script w = EvLine line :: EvSelect i :: EvGenerate (inr code) :: EvYN preview ::
             EvExec st ws :: EvYN false :: EvNow now :: EvLine enter :: rest ->
  exists w',
    newCode cwd platform w = (Return tt, w') /\
    fs w' !! getFilename cwd (Str.trim line) (ext f) = Some code /\
    holds_log cwd (fs w')
      (old ++ [ {| Entry.timestamp := now; Entry.prompt := Str.trim line;
                   Entry.lang := lang;
                   Entry.file := getFilename cwd (Str.trim line) (ext f) |} ]) /\
    script w' = rest /\
    calls w' = calls w ++
      [ CGenerate "gemini-2.0-flash"
          ("generate code in " +:+ lang +:+ " based on this prompt: " +:+ Str.trim line +:+
           " and return just the raw code with no backticks");
        CExec (Str.first_word (cmd f) +:+ " --version") ] /\
    stdout w' = stdout w ++
      [ "‹ Enter Prompt: "; "Select language:"; "Generating code...";
        "Preview code in terminal?" ] ++
      (if preview then [NL +:+ "› Preview:" +:+ NL; code] else []) ++
      [ "Saved to " +:+ getFilename cwd (Str.trim line) (ext f);
        "Copy code to clipboard?";
        NL +:+ "Done. Press Enter to return..." ].
Proof.
  intros Hi Hlang Hf Hlen Hst Hh Hp Hold Hs.
  destruct w as [files out scr cs]. simpl in Hs, Hold. subst scr.
  unfold newCode. cbv zeta.
  erewrite (newCode_begins {| fs := files; stdout := out; script := _; calls := cs |}
              line i lang f _ Hi Hlang Hf eq_refl).
  cbv beta.
  assert (Hz : (st =? 0)%Z = false) by (by apply Z.eqb_neq).
  destruct preview.
  all: do 3 run_step.
  all: erewrite try_bind_run by (by apply writeCode_run).
  all: erewrite try_bind_run by (by eapply (checkFormatter_run lang f _ st ws)).
  all: rewrite Hz.
  all: do 3 run_step.
  all: erewrite try_bind_run;
    [| eapply (saveHistory_run cwd _ _ _ _ _ now (EvLine enter :: rest) old); [|reflexivity];
       cbn [fs set_fs set_script put record puts foldl];
       apply holds_log_writes; [done|];
       apply holds_log_other; [apply getFilename_not_history | done] ].
  all: run_step.
  all: eexists; split; [reflexivity|].
  all: cbn [fs set_fs set_script put record puts foldl script calls stdout].
  all: repeat split.
  all: try apply holds_log_insert.
  all: try (rewrite lookup_insert_ne by (apply not_eq_sym, getFilename_not_history);
            rewrite apply_writes_spares by done; apply lookup_insert_eq).
  all: by rewrite <- ?app_assoc.
Qed.

Lemma try_bind_throw {A B} (m : M A) (k : A -> M B) (h : Exn -> M B) w e w1 :
  m w = (Throw e, w1) -> try_catch (bind m k) h w = h e w1.
Proof. intros H. unfold try_catch, bind. by rewrite H. Qed.

(** [JSON.parse] on a text that is not JSON. *)
Lemma JSON_parse_invalid text w :
  JSON.valid text = false ->
  exists msg, JSON_parse text w = (Throw (SyntaxError msg), w).
Proof.
  intros H. unfold JSON_parse. rewrite (invalid_parse text H), H. by eexists.
Qed.

Lemma saveHistory_corrupt cwd prompt code lang file w text :
  fs w !! historyPath cwd = Some text ->
  JSON.valid text = false ->
  exists msg,
    saveHistory cwd prompt code lang file w = (Throw (SyntaxError msg), w).
Proof.
  intros Hfile Hvalid. destruct (JSON_parse_invalid text w Hvalid) as [msg Hmsg].
  exists msg. unfold saveHistory, bind, existsSync, readFileSync.
  rewrite Hfile. cbn [fst snd]. by rewrite Hfile, Hmsg.
Qed.

(** * The claims *)

(** ** Filenames *)

(** C4 as stated fails: the Kelvin sign, U+212A, is no ASCII letter, so
    the source replaces it by an underscore before it lower-cases; the
    prompt lower-cased first is "k", which the class [a-z0-9] keeps. *)
Lemma kelvin_sign_is_replaced :
  spec_normalize_units [8490%N] = Some "k" /\
  Units.getFilename "/home/user" [8490%N] ".py" = "/home/user/generated/_.py" /\
  Units.getFilename "/home/user" [8490%N] ".py"
    <> "/home/user/generated/" +:+ "k" +:+ ".py".
Proof. split; [reflexivity|]. split; [reflexivity|discriminate]. Qed.

(** C4, as the code has it.  The filename is a function of the prompt
    and the language's extension: every code unit of the prompt other
    than an ASCII letter or digit is replaced by an underscore, the
    letters are lower-cased, the extension is appended, the whole is
    placed in the output directory.  On a prompt whose code units are
    below 256, as the lines of the model are, this is the prompt
    lower-cased first, with every code unit outside [a-z0-9] replaced
    after.  The prompt "Fibonacci function!!" with Python gives
    fibonacci_function__.py there. *)
Theorem getFilename_replaces_then_lowers cwd prompt lang f :
  assoc lang formatters = Some f ->
  Units.getFilename cwd prompt (ext f)
    = outputDir cwd +:+ "/" +:+ normalize_units prompt +:+ ext f
  /\ (Forall (fun u => (u < 256)%N) prompt ->
      spec_normalize_units prompt = Some (normalize_units prompt))
  /\ (forall line,
        getFilename cwd line (ext f) = Units.getFilename cwd (Str.units line) (ext f) /\
        getFilename cwd line (ext f)
          = outputDir cwd +:+ "/" +:+ spec_normalize line +:+ ext f)
  /\ (lang = "Python" ->
      getFilename cwd "Fibonacci function!!" (ext f)
        = outputDir cwd +:+ "/" +:+ "fibonacci_function__.py").
Proof.
  intros Hf. split; [|split; [|split]].
  - unfold Units.getFilename. by rewrite path_join_outputDir, replace_units_normal.
  - intros Hsmall. destruct (spec_normalize_below_256 prompt Hsmall) as (l & Hl & Hr).
    unfold spec_normalize_units. rewrite Hl. cbn [mbind option_bind]. by rewrite Hr.
  - intros line. split; [by rewrite units_getFilename|].
    unfold getFilename. by rewrite path_join_outputDir, replace_then_lower.
  - intros ->. injection Hf as <-. unfold getFilename.
    by rewrite path_join_outputDir.
Qed.

Lemma getFilename_replaces_then_lowers_witness :
  assoc "Python" formatters = Some {| cmd := "black"; ext := ".py" |} /\
  Units.getFilename "/home/user" [70%N; 8490%N; 33%N] ".py"
    = "/home/user/generated/f__.py" /\
  spec_normalize_units (Str.units "Fibonacci function!!") = Some "fibonacci_function__" /\
  getFilename "/home/user" "Fibonacci function!!" ".py"
    = "/home/user/generated/fibonacci_function__.py".
Proof.
  split; [reflexivity|].
  destruct (getFilename_replaces_then_lowers "/home/user" [70%N; 8490%N; 33%N] "Python"
              {| cmd := "black"; ext := ".py" |} eq_refl) as (H1 & _ & _ & H2).
  destruct (getFilename_replaces_then_lowers "/home/user"
              (Str.units "Fibonacci function!!") "Python"
              {| cmd := "black"; ext := ".py" |} eq_refl) as (_ & H3 & _).
  split; [exact H1|]. split; [|exact (H2 eq_refl)].
  apply H3. cbn [Str.units]. repeat constructor.
Defined.

(** C5, as the code has it.  "Sort list" and "sort list" (one space)
    derive the same file sort_list{ext}, and the second write replaces
    what the first wrote; "sort   list" (three spaces) derives
    sort___list{ext}, one underscore for each space. *)
Theorem same_name_overwrites cwd lang f code1 code2 w :
  assoc lang formatters = Some f ->
  let first := getFilename cwd "Sort list" (ext f) in
  let second := getFilename cwd "sort list" (ext f) in
  first = outputDir cwd +:+ "/" +:+ "sort_list" +:+ ext f /\
  second = first /\
  getFilename cwd "sort   list" (ext f)
    = outputDir cwd +:+ "/" +:+ "sort___list" +:+ ext f /\
  fs (snd ((writeCode first code1 ;; writeCode second code2) w)) !! first
    = Some code2.
Proof.
  intros Hf. cbv zeta.
  assert (Hsecond : getFilename cwd "sort list" (ext f) = getFilename cwd "Sort list" (ext f))
    by reflexivity.
  rewrite Hsecond.
  split; [unfold getFilename; by rewrite path_join_outputDir|].
  split; [done|].
  split; [unfold getFilename; by rewrite path_join_outputDir|].
  assert (Hwrite : forall data w',
    writeFileSync (getFilename cwd "Sort list" (ext f)) data w'
    = (Return tt, set_fs (insert (getFilename cwd "Sort list" (ext f)) data) w')).
  { intros data w'. apply writeFileSync_run. rewrite (derived_name_bytes cwd lang) by done.
    destruct (registry_ext lang f Hf) as [_ Hlen]. unfold NAME_MAX. simpl. lia. }
  unfold writeCode, bind. rewrite Hwrite. cbn [console_log]. rewrite Hwrite.
  cbn [snd fs put set_fs]. apply lookup_insert_eq.
Qed.

Lemma same_name_overwrites_witness :
  assoc "Go" formatters = Some {| cmd := "gofmt -w"; ext := ".go" |} /\
  getFilename "/home/user" "sort list" ".go" = "/home/user/generated/sort_list.go".
Proof.
  split; [reflexivity|].
  pose proof (same_name_overwrites "/home/user" "Go" {| cmd := "gofmt -w"; ext := ".go" |}
                "a" "b" blank eq_refl) as H.
  cbv zeta in H. destruct H as (H1 & H2 & _). exact (eq_trans H2 H1).
Defined.

(** C5 as stated fails: with three spaces the two prompts derive two
    different files, and the first file keeps its content. *)
Lemma three_spaces_do_not_collide :
  getFilename "/home/user" "sort   list" ".py" = "/home/user/generated/sort___list.py" /\
  getFilename "/home/user" "Sort list" ".py" <> getFilename "/home/user" "sort   list" ".py" /\
  fs (snd ((writeCode (getFilename "/home/user" "Sort list" ".py") "one" ;;
            writeCode (getFilename "/home/user" "sort   list" ".py") "two") blank))
    !! getFilename "/home/user" "Sort list" ".py" = Some "one".
Proof.
  split; [reflexivity|]. split; [discriminate|].
  vm_compute. reflexivity.
Qed.




(** ** The turn that fails to generate *)

(** C2.  When the generation call rejects, the turn reports the error,
    waits for Enter and goes back to the menu; no file has been written
    (the file system is the one before the turn, the history file with
    it) and the one call made to the outside is the generation request. *)
Theorem failed_generation_changes_nothing cwd platform w line i err enter rest :
  (-1 <= i < 7)%Z ->
  script w = EvSelect 0 :: EvLine line :: EvSelect i ::
             EvGenerate (inl err) :: EvLine enter :: rest ->
  exists w' shown contents,
    iteration cwd platform w = (Return Continue, w') /\
    fs w' = fs w /\
    script w' = rest /\
    stdout w' = stdout w ++ shown /\
    (NL +:+ "Something went wrong: " +:+ exn_message err) ∈ shown /\
    calls w' = calls w ++ [CGenerate "gemini-2.0-flash" contents] /\
    (forall n, main_loop cwd platform (S n) w = main_loop cwd platform n w').
Proof.
  intros Hi Hs. destruct w as [files out scr cs]. simpl in Hs. subst scr.
  set (w := {| fs := files; stdout := out; calls := cs |}).
  set (lang := if (i =? -1)%Z then "JavaScript" else default "" (languages !! Z.to_nat i)).
  set (contents := "generate code in " +:+ lang +:+ " based on this prompt: " +:+
                   Str.trim line +:+ " and return just the raw code with no backticks").
  set (shown := [ String "027"%char "c"; NL +:+ "Charisma"; "Coding Agent";
                  "Select option:"; "‹ Enter Prompt: "; "Select language:";
                  "Generating code...";
                  NL +:+ "Something went wrong: " +:+ exn_message err;
                  NL +:+ "Press Enter to return..." ]).
  set (w' := puts shown (record (CGenerate "gemini-2.0-flash" contents) (set_script rest w))).
  assert (Hrun : iteration cwd platform w = (Return Continue, w')).
  { subst w w' shown contents lang. each_language Hi; reflexivity. }
  exists w', shown, contents. split; [exact Hrun|].
  split; [by unfold w'; rewrite fs_puts|].
  split; [by unfold w'; rewrite script_puts|].
  split; [by unfold w'; rewrite stdout_puts|].
  split; [unfold shown; rewrite !elem_of_cons; auto 20|].
  split; [by unfold w'; rewrite calls_puts|].
  intros n. cbn [main_loop]. unfold bind at 1. by rewrite Hrun.
Qed.

Lemma failed_generation_changes_nothing_witness :
  exists w', iteration "/home/user" "linux" (set_script failed_generation_script blank)
             = (Return Continue, w') /\ fs w' = ∅.
Proof.
  destruct (failed_generation_changes_nothing "/home/user" "linux"
              (set_script failed_generation_script blank)
              "fizz buzz" 2 {| exn_name := "Error"; exn_message := "fetch failed" |} "" []
              ltac:(lia) eq_refl) as (w' & _ & _ & Hrun & Hfs & _).
  exists w'. split; [exact Hrun | exact Hfs].
Defined.

(** ** Failures that leave the loop *)

(** C6 does not hold of the code.  The read of the file named in the
    gist branch and the read of the history file in the view branch are
    outside every try block: a missing gist file, or a history file that
    is not JSON, ends [main] with the exception, although the user has
    not chosen Exit (the script still holds that choice). *)
Theorem unguarded_reads_end_main :
  main "/home/user" "linux" gist_of_missing_file
    = (Throw (ENOENT "missing.txt"),
       set_script [EvSelect 3]
         (puts [ String "027"%char "c"; NL +:+ "Charisma"; "Coding Agent";
                 "Select option:"; "Enter your GitHub token: ";
                 "Enter a description for the Gist (optional): ";
                 "Should the Gist be private?";
                 "Enter Gist filename (with extension): " ] gist_of_missing_file)) /\
  fst (main "/home/user" "linux" view_of_corrupt_history)
    = Throw (SyntaxError "Unexpected token in JSON") /\
  script (snd (main "/home/user" "linux" view_of_corrupt_history))
    = [EvLine ""; EvSelect 3].
Proof. repeat split; vm_compute; reflexivity. Qed.

(** ** The formatter probe *)

(** C7.  For every language of the registry the probe does not throw:
    it runs the first word of the formatter command with --version and
    returns the command when that process exits with status zero, and
    null ([None]) otherwise. *)
Theorem checkFormatter_never_throws lang f w :
  assoc lang formatters = Some f ->
  (forall e, fst (checkFormatter lang w) <> Throw e) /\
  (forall status writes rest,
     script w = EvExec status writes :: rest ->
     fst (checkFormatter lang w)
       = Return (if (status =? 0)%Z then Some (cmd f) else None) /\
     calls (snd (checkFormatter lang w))
       = calls w ++ [CExec (Str.first_word (cmd f) +:+ " --version")]).
Proof.
  intros Hf. unfold checkFormatter. rewrite Hf. split.
  - intros e. unfold try_catch.
    match goal with |- context [bind ?m ?k w] => destruct (bind m k w) as [[a|e'|] w'] end;
      simpl; discriminate.
  - intros status writes rest Hs.
    destruct w as [files out scr cs]. simpl in Hs. subst scr.
    unfold try_catch, bind, ret, execSync, bind, note, await, touch; simpl.
    destruct (status =? 0)%Z; simpl; done.
Qed.

Lemma checkFormatter_never_throws_witness :
  assoc "Go" formatters = Some {| cmd := "gofmt -w"; ext := ".go" |} /\
  fst (checkFormatter "Go" (set_script [EvExec 127 []] blank)) = Return None.
Proof.
  split; [reflexivity|].
  destruct (checkFormatter_never_throws "Go" {| cmd := "gofmt -w"; ext := ".go" |}
              (set_script [EvExec 127 []] blank) eq_refl) as [_ H].
  destruct (H 127%Z [] [] eq_refl) as [H1 _]. exact H1.
Defined.

(** ** The gist request *)

(** C8.  The request that [createGist] sends carries one file entry,
    under the given filename, whose content is the given text; its
    [public] flag is the negation of [isPrivate]; and the credential
    travels in the Authorization header as "token <credential>". *)
Theorem createGist_request filename code token description isPrivate w :
  exists body,
    calls (snd (createGist filename code token description isPrivate w))
      = calls w ++ [CPost "https://api.github.com/gists" body
                          [("Authorization", "token " +:+ token)]] /\
    Gist.files body = {[ filename := {| Gist.content := code |} ]} /\
    size (Gist.files body) = 1%nat /\
    Gist.files body !! filename = Some {| Gist.content := code |} /\
    Gist.public body = negb isPrivate.
Proof.
  exists {| Gist.description :=
              if String.eqb description "" then "Generated Code Gist" else description;
            Gist.public := negb isPrivate;
            Gist.files := {[ filename := {| Gist.content := code |} ]} |}.
  split; [|split; [reflexivity|]].
  - unfold createGist, try_catch, axios_post, bind, note, await.
    cbn [script record fst snd].
    destruct (script w) as [|[] rest]; try reflexivity.
    destruct r as [e|url]; reflexivity.
  - cbn [Gist.files Gist.public].
    split; [apply map_size_singleton|]. split; [apply lookup_singleton_eq|done].
Qed.

(** ** The history store and its view *)

(** C3.  [saveHistory] reads the log that the backing file holds (the
    empty log when the file is absent), adds the one new entry at the
    end and writes the whole file again: the new text parses to the
    objects of the old log, in their order, followed by the object of
    the new entry, with the time of the clock under "timestamp" and the
    prompt, the language and the file under "prompt", "lang" and
    "file"; nothing else in the file system changes, nothing is
    printed and nothing is asked of the outside but the time. *)
Theorem saveHistory_appends_entry cwd w prompt code lang file now rest old :
  holds_log cwd (fs w) old ->
  script w = EvNow now :: rest ->
  exists w' text,
    saveHistory cwd prompt code lang file w = (Return tt, w') /\
    fs w' = <[historyPath cwd := text]> (fs w) /\
    JSON.parse text
      = Some (JArr ((value_of <$> old) ++
                    [ JObj [ ("timestamp", JStr now); ("prompt", JStr prompt);
                             ("lang", JStr lang); ("file", JStr file) ] ])) /\
    holds_log cwd (fs w')
      (old ++ [ {| Entry.timestamp := now; Entry.prompt := prompt;
                   Entry.lang := lang; Entry.file := file |} ]) /\
    stdout w' = stdout w /\ calls w' = calls w /\ script w' = rest.
Proof.
  intros Hold Hs. eexists _, _. split.
  - exact (saveHistory_run cwd w prompt code lang file now rest old Hold Hs).
  - split; [reflexivity|]. split.
    { rewrite parse_stringify_log. unfold log_value. by rewrite fmap_app. }
    split; [|done]. cbn [fs set_fs]. apply holds_log_insert.
Qed.

Lemma saveHistory_appends_entry_witness :
  exists w',
    saveHistory "/home/user" "fizz buzz" "print(1)" "Python"
      "/home/user/generated/fizz_buzz.py" (set_script [EvNow first_entry_time] blank)
    = (Return tt, w') /\
    holds_log "/home/user" (fs w') [first_entry].
Proof.
  destruct (saveHistory_appends_entry "/home/user" (set_script [EvNow first_entry_time] blank)
              "fizz buzz" "print(1)" "Python" "/home/user/generated/fizz_buzz.py"
              first_entry_time [] [] eq_refl eq_refl) as (w' & text & Hrun & _ & _ & Hlog & _).
  exists w'. split; [exact Hrun | exact Hlog].
Defined.

(** C1.  After a sequence of appends to a store that had no file, the
    history view prints the last min(5, length) entries, oldest first,
    each with the language, prompt and file it was appended with; and
    the file holds every entry, timestamps included.  On a store whose
    file is absent the view prints no entry and does not throw. *)
Theorem view_after_appends cwd code_of es w rest :
  fs w !! historyPath cwd = None ->
  script w = clock es ++ rest ->
  List.length (recent 5 es) = Nat.min 5 (List.length es) /\
  (exists w',
     (appendAll cwd code_of es ;; viewHistory cwd) w = (Return tt, w') /\
     holds_log cwd (fs w') es /\
     script w' = rest /\
     stdout w' = stdout w ++
       match es with
       | [] => ["No history yet."]
       | _ => (NL +:+ "› History:") :: view_lines (recent 5 es)
       end) /\
  viewHistory cwd w = (Return tt, put "No history yet." w).
Proof.
  intros Hfile Hs. split; [apply recent_length|]. split; [|by apply viewHistory_absent].
  destruct (appendAll_run cwd code_of es w [] rest) as
    (w1 & Hrun & Hlog & Hsome & Hnil & Hout & Hscr & _); [|exact Hs|].
  { unfold holds_log. by rewrite Hfile. }
  cbn [app] in Hlog. erewrite bind_run by exact Hrun.
  destruct es as [|e es].
  - rewrite viewHistory_absent by (by rewrite Hnil).
    exists (put "No history yet." w1). cbn [put fs script stdout].
    by rewrite Hout, Hscr.
  - destruct Hsome as [text Htext]; [done|].
    assert (Hparse : JSON.parse text = Some (log_value (e :: es))).
    { unfold holds_log in Hlog. by rewrite Htext in Hlog. }
    rewrite (viewHistory_run cwd w1 text (e :: es) Htext Hparse).
    eexists. split; [reflexivity|].
    rewrite fs_puts, script_puts, stdout_puts, Hout, Hscr. done.
Qed.

Lemma view_after_appends_witness :
  exists w',
    (appendAll "/home/user" (fun _ => "print(1)") [first_entry] ;; viewHistory "/home/user")
      (set_script [EvNow first_entry_time] blank) = (Return tt, w') /\
    stdout w' = [NL +:+ "› History:";
                 "1. [Python] → fizz buzz (/home/user/generated/fizz_buzz.py)"].
Proof.
  destruct (view_after_appends "/home/user" (fun _ => "print(1)") [first_entry]
              (set_script [EvNow first_entry_time] blank) [] eq_refl eq_refl)
    as (_ & (w' & Hrun & _ & _ & Hout) & _).
  exists w'. split; [exact Hrun | exact Hout].
Defined.

(** C9.  Whatever log the history file holds, the view prints the
    entries of its last five positions and no other: at most five
    lines, exactly five when the log is longer, and the entries before
    them are left out. *)
Theorem view_shows_last_five cwd w text h :
  fs w !! historyPath cwd = Some text ->
  JSON.parse text = Some (log_value h) ->
  exists shown,
    viewHistory cwd w
      = (Return tt, puts ((NL +:+ "› History:") :: view_lines shown) w) /\
    h = take (List.length h - 5) h ++ shown /\
    (List.length (view_lines shown) <= 5)%nat /\
    ((5 < List.length h)%nat -> List.length (view_lines shown) = 5%nat).
Proof.
  intros Hfile Hparse. exists (recent 5 h).
  split; [by apply viewHistory_run with text|].
  split; [unfold recent; by rewrite take_drop|].
  unfold view_lines. rewrite lines_from_length, recent_length. lia.
Qed.

Lemma view_shows_last_five_witness :
  exists shown,
    viewHistory "/home/user" six_entries_world
      = (Return tt, puts ((NL +:+ "› History:") :: view_lines shown) six_entries_world) /\
    List.length (view_lines shown) = 5%nat.
Proof.
  destruct (view_shows_last_five "/home/user" six_entries_world
              (JSON.stringify (log_value six_entries) 2) six_entries)
    as (shown & Hrun & _ & _ & Hfive).
  - reflexivity.
  - vm_compute. reflexivity.
  - exists shown. split; [exact Hrun|]. apply Hfive. simpl. lia.
Defined.

(** * Further properties of the code *)

(** ** Computations that never throw *)

Lemma never_throws_ret {A} (a : A) : never_throws (ret a).
Proof. by intros w e. Qed.

Lemma never_throws_bind_post {A B} (P : A -> Prop) (m : M A) (k : A -> M B) :
  never_throws m ->
  (forall w a w', m w = (Return a, w') -> P a) ->
  (forall a, P a -> never_throws (k a)) ->
  never_throws (bind m k).
Proof.
  intros Hm HP Hk w e. unfold bind. specialize (Hm w).
  destruct (m w) as [[a|e'|] w1] eqn:E; simpl in *.
  - apply Hk. by eapply HP.
  - by destruct (Hm e').
  - done.
Qed.

Lemma never_throws_bind {A B} (m : M A) (k : A -> M B) :
  never_throws m -> (forall a, never_throws (k a)) -> never_throws (bind m k).
Proof.
  intros Hm Hk. apply (never_throws_bind_post (fun _ => True)); auto.
Qed.

(** Whatever the body does, a handler that does not throw makes the
    whole statement safe. *)
Lemma never_throws_try_catch {A} (body : M A) (h : Exn -> M A) :
  (forall e, never_throws (h e)) -> never_throws (try_catch body h).
Proof.
  intros Hh w e. unfold try_catch.
  destruct (body w) as [[a|e'|] w1]; simpl; [done | apply Hh | done].
Qed.

Lemma never_throws_when (b : bool) (m : M unit) :
  never_throws m -> never_throws (when_ b m).
Proof. destruct b; [done|]. intros _. apply never_throws_ret. Qed.

Lemma never_throws_await {A} (pick : Event -> option A) : never_throws (await pick).
Proof.
  intros w e. unfold await. destruct (script w) as [|ev rest]; [done|].
  by destruct (pick ev).
Qed.

Lemma never_throws_console_log line : never_throws (console_log line).
Proof. by intros w e. Qed.

Lemma never_throws_question query : never_throws (question query).
Proof.
  unfold question. apply never_throws_bind; [apply never_throws_console_log|].
  intros _. apply never_throws_await.
Qed.

Lemma never_throws_keyInYNStrict query : never_throws (keyInYNStrict query).
Proof.
  unfold keyInYNStrict. apply never_throws_bind; [apply never_throws_console_log|].
  intros _. apply never_throws_await.
Qed.

Lemma never_throws_keyInSelect items query : never_throws (keyInSelect items query).
Proof.
  unfold keyInSelect. apply never_throws_bind; [apply never_throws_console_log|].
  intros _. apply never_throws_await.
Qed.

Lemma never_throws_checkFormatter lang : never_throws (checkFormatter lang).
Proof. apply never_throws_try_catch. intros _. apply never_throws_ret. Qed.

Lemma never_throws_formatCode c file : never_throws (formatCode c file).
Proof. apply never_throws_try_catch. intros _. apply never_throws_console_log. Qed.

Lemma never_throws_copyToClipboard platform code :
  never_throws (copyToClipboard platform code).
Proof. apply never_throws_try_catch. intros _. apply never_throws_ret. Qed.

Lemma never_throws_createGist filename code token description isPrivate :
  never_throws (createGist filename code token description isPrivate).
Proof. apply never_throws_try_catch. intros err. apply never_throws_console_log. Qed.

(** What [languageSelector] returns is a key of the registry. *)
Lemma languageSelector_registry w lang w' :
  languageSelector w = (Return lang, w') -> is_Some (assoc lang formatters).
Proof.
  unfold languageSelector, keyInSelect, bind, stdout_write, await. cbn [fst snd put script].
  destruct (script w) as [|[i| | | | | |] rest]; try done.
  destruct ((-1 <=? i) && (i <? Z.of_nat (List.length languages)))%Z eqn:Hi; [|done].
  intros [= <- _]. apply andb_prop in Hi as [H1%Z.leb_le H2%Z.ltb_lt].
  assert (Hr : (-1 <= i < 7)%Z) by (simpl in H2; lia).
  each_language Hr; cbn; eauto.
Qed.

Lemma never_throws_languageSelector : never_throws languageSelector.
Proof.
  unfold languageSelector. apply never_throws_bind; [apply never_throws_keyInSelect|].
  intros i. apply never_throws_ret.
Qed.

Lemma never_throws_getPrompt : never_throws getPrompt.
Proof.
  unfold getPrompt. apply never_throws_bind; [apply never_throws_question|].
  intros line. apply never_throws_ret.
Qed.

Lemma never_throws_newCode cwd platform : never_throws (newCode cwd platform).
Proof.
  unfold newCode.
  apply never_throws_bind; [apply never_throws_getPrompt | intros prompt].
  apply (never_throws_bind_post (fun lang => is_Some (assoc lang formatters)));
    [apply never_throws_languageSelector | apply languageSelector_registry |].
  intros lang [f Hf]. rewrite Hf.
  apply never_throws_bind; [apply never_throws_ret | intros f'].
  cbv zeta.
  apply never_throws_bind; [apply never_throws_console_log | intros _].
  apply never_throws_try_catch. intros err.
  apply never_throws_bind; [apply never_throws_console_log | intros _].
  apply never_throws_bind; [apply never_throws_question | intros _].
  apply never_throws_ret.
Qed.

(** ** Computations that only print *)

Lemma only_prints_ret {A} (a : A) : only_prints (ret a).
Proof. by intros w. Qed.

Lemma only_prints_throw {A} (e : Exn) : only_prints (@throw A e).
Proof. by intros w. Qed.

Lemma only_prints_bind {A B} (m : M A) (k : A -> M B) :
  only_prints m -> (forall a, only_prints (k a)) -> only_prints (bind m k).
Proof.
  intros Hm Hk w. unfold bind. specialize (Hm w).
  destruct (m w) as [[a|e|] w1]; simpl in *; [|done..].
  destruct (Hk a w1) as (?&?&?), Hm as (?&?&?). repeat split; congruence.
Qed.

Lemma only_prints_console_log line : only_prints (console_log line).
Proof. by intros w. Qed.

Lemma only_prints_existsSync path : only_prints (existsSync path).
Proof. by intros w. Qed.

Lemma only_prints_readFileSync path : only_prints (readFileSync path).
Proof. intros w. unfold readFileSync. by destruct (fs w !! path). Qed.

Lemma only_prints_JSON_parse text : only_prints (JSON_parse text).
Proof.
  unfold JSON_parse. destruct (JSON.parse text); [apply only_prints_ret|].
  destruct (JSON.valid text); [done | apply only_prints_throw].
Qed.

Lemma only_prints_get key item : only_prints (get key item).
Proof. destruct item; first [apply only_prints_ret | apply only_prints_throw]. Qed.

Lemma only_prints_history_line item i : only_prints (history_line item i).
Proof.
  unfold history_line.
  repeat (apply only_prints_bind; [apply only_prints_get | intros ?]).
  apply only_prints_console_log.
Qed.

Lemma only_prints_forEach {A} (f : A -> nat -> M unit) l :
  (forall x i, only_prints (f x i)) -> forall i, only_prints (forEach f l i).
Proof.
  intros Hf. induction l as [|x l IH]; intros i; cbn [forEach]; [apply only_prints_ret|].
  apply only_prints_bind; [apply Hf | intros _; apply IH].
Qed.

Lemma only_prints_viewHistory cwd : only_prints (viewHistory cwd).
Proof.
  unfold viewHistory.
  apply only_prints_bind; [apply only_prints_existsSync | intros present].
  destruct present; cbn [negb]; [|apply only_prints_console_log].
  apply only_prints_bind; [apply only_prints_readFileSync | intros text].
  apply only_prints_bind; [apply only_prints_JSON_parse | intros history].
  apply only_prints_bind; [apply only_prints_console_log | intros _].
  destruct history; try apply only_prints_throw.
  apply only_prints_forEach, only_prints_history_line.
Qed.

(** ** The turn that generates, as a whole *)

(** X1.  A turn that generates, when the derived file name is at most
    255 bytes long, the formatter is not installed and the clipboard is
    declined: the text is in the derived file, the history file holds
    the old log followed by one entry with the trimmed prompt, the
    language and that file, and the turn ends normally.  The only calls
    are the generation request and the probe. *)
Theorem newCode_saves_and_logs
    cwd platform w line i lang f code preview st ws now enter rest old :
  (0 <= i)%Z ->
  languages !! Z.to_nat i = Some lang ->
  assoc lang formatters = Some f ->
  (byte_length (basename (getFilename cwd (Str.trim line) (ext f))) <= NAME_MAX)%nat ->
  st <> 0%Z ->
  spares (historyPath cwd) ws ->
  spares (getFilename cwd (Str.trim line) (ext f)) ws ->
  holds_log cwd (fs w) old ->
  script w = EvLine line :: EvSelect i :: EvGenerate (inr code) :: EvYN preview ::
             EvExec st ws :: EvYN false :: EvNow now :: EvLine enter :: rest ->
  exists w',
    newCode cwd platform w = (Return tt, w') /\
    fs w' !! getFilename cwd (Str.trim line) (ext f) = Some code /\
    holds_log cwd (fs w')
      (old ++ [ {| Entry.timestamp := now; Entry.prompt := Str.trim line;
                   Entry.lang := lang;
                   Entry.file := getFilename cwd (Str.trim line) (ext f) |} ]) /\
    script w' = rest /\
    calls w' = calls w ++
      [ CGenerate "gemini-2.0-flash"
          ("generate code in " +:+ lang +:+ " based on this prompt: " +:+ Str.trim line +:+
           " and return just the raw code with no backticks");
        CExec (Str.first_word (cmd f) +:+ " --version") ].
Proof.
  intros Hi Hlang Hf Hlen Hst Hh Hp Hold Hs.
  destruct (newCode_success_run cwd platform w line i lang f code preview st ws now enter
              rest old Hi Hlang Hf Hlen Hst Hh Hp Hold Hs)
    as (w' & Hrun & Hfile & Hlog & Hscr & Hcalls & _).
  by exists w'.
Qed.

(** X2.  A formatter that fails and a clipboard command that fails do
    not stop the turn (the derived file name being at most 255 bytes
    long): "Formatter error" is printed, nothing is printed for the
    clipboard, and the history entry is appended all the same.  The
    formatter is run as "<cmd> <file>" after the file is written. *)
Theorem newCode_outlives_formatter_and_clipboard
    cwd platform w line i lang f code st1 ws1 st2 ws2 now enter rest old :
  (0 <= i)%Z ->
  languages !! Z.to_nat i = Some lang ->
  assoc lang formatters = Some f ->
  (byte_length (basename (getFilename cwd (Str.trim line) (ext f))) <= NAME_MAX)%nat ->
  st1 <> 0%Z -> st2 <> 0%Z ->
  spares (historyPath cwd) ws1 -> spares (historyPath cwd) ws2 ->
  holds_log cwd (fs w) old ->
  script w = EvLine line :: EvSelect i :: EvGenerate (inr code) :: EvYN false ::
             EvExec 0 [] :: EvYN true :: EvExec st1 ws1 ::
             EvYN true :: EvExec st2 ws2 :: EvNow now :: EvLine enter :: rest ->
  exists w',
    newCode cwd platform w = (Return tt, w') /\
    holds_log cwd (fs w')
      (old ++ [ {| Entry.timestamp := now; Entry.prompt := Str.trim line;
                   Entry.lang := lang;
                   Entry.file := getFilename cwd (Str.trim line) (ext f) |} ]) /\
    script w' = rest /\
    stdout w' = stdout w ++
      [ "‹ Enter Prompt: "; "Select language:"; "Generating code...";
        "Preview code in terminal?";
        "Saved to " +:+ getFilename cwd (Str.trim line) (ext f);
        "Format with " +:+ Str.first_word (cmd f) +:+ "?";
        "Formatter error";
        "Copy code to clipboard?";
        NL +:+ "Done. Press Enter to return..." ] /\
    calls w' = calls w ++
      [ CGenerate "gemini-2.0-flash"
          ("generate code in " +:+ lang +:+ " based on this prompt: " +:+ Str.trim line +:+
           " and return just the raw code with no backticks");
        CExec (Str.first_word (cmd f) +:+ " --version");
        CExec (cmd f +:+ " " +:+ getFilename cwd (Str.trim line) (ext f));
        CExec ("echo " +:+ chr DQUOTE +:+ code +:+ chr DQUOTE +:+ " | " +:+
               (if String.eqb platform "darwin" then "pbcopy"
                else "xclip -selection clipboard")) ].
Proof.
  intros Hi Hlang Hf Hlen Hst1 Hst2 Hh1 Hh2 Hold Hs.
  destruct w as [files out scr cs]. simpl in Hs, Hold. subst scr.
  unfold newCode. cbv zeta.
  erewrite (newCode_begins {| fs := files; stdout := out; script := _; calls := cs |}
              line i lang f _ Hi Hlang Hf eq_refl).
  cbv beta.
  assert (Hz1 : (st1 =? 0)%Z = false) by (by apply Z.eqb_neq).
  assert (Hz2 : (st2 =? 0)%Z = false) by (by apply Z.eqb_neq).
  do 3 run_step.
  erewrite try_bind_run by (by apply writeCode_run).
  erewrite try_bind_run by (by eapply (checkFormatter_run lang f _ 0 [])).
  cbn [Z.eqb].
  assert (Ht : truthy (Some (cmd f)) = true).
  { assert (Hr : (-1 <= i < 7)%Z).
    { apply lookup_lt_Some in Hlang. simpl in Hlang. lia. }
    each_language Hr; try lia; simpl in Hlang; injection Hlang as <-;
      injection Hf as <-; reflexivity. }
  rewrite Ht. cbn [when_ default from_option id].
  erewrite try_bind_run.
  2:{ erewrite bind_run by reflexivity. cbn [when_].
      by eapply (formatCode_run _ _ _ st1 ws1). }
  rewrite Hz1. run_step.
  erewrite try_bind_run by (by eapply (copyToClipboard_run _ _ _ st2 ws2)).
  rewrite Hz2. cbn [id].
  erewrite try_bind_run;
    [| eapply (saveHistory_run cwd _ _ _ _ _ now (EvLine enter :: rest) old); [|reflexivity];
       cbn [fs set_fs set_script put record puts foldl];
       do 3 (apply holds_log_writes; [first [done | apply not_elem_of_nil]|]);
       apply holds_log_other; [apply getFilename_not_history | done] ].
  run_step.
  eexists; split; [reflexivity|].
  cbn [fs set_fs set_script put record puts foldl script calls stdout].
  split; [apply holds_log_insert|]. split; [done|].
  split; by rewrite <- !app_assoc.
Qed.

(** X3.  A history file that is not JSON does not lose the generated
    text (the derived file name being at most 255 bytes long): the file
    is written, the failure of the append is reported as "Something
    went wrong:" with the message of the error, the history file keeps
    its text, and the turn ends normally. *)
Theorem newCode_reports_corrupt_history
    cwd platform w line i lang f code st ws enter rest text :
  (0 <= i)%Z ->
  languages !! Z.to_nat i = Some lang ->
  assoc lang formatters = Some f ->
  (byte_length (basename (getFilename cwd (Str.trim line) (ext f))) <= NAME_MAX)%nat ->
  st <> 0%Z ->
  spares (historyPath cwd) ws ->
  spares (getFilename cwd (Str.trim line) (ext f)) ws ->
  fs w !! historyPath cwd = Some text ->
  JSON.valid text = false ->
  script w = EvLine line :: EvSelect i :: EvGenerate (inr code) :: EvYN false ::
             EvExec st ws :: EvYN false :: EvLine enter :: rest ->
  exists w' message,
    newCode cwd platform w = (Return tt, w') /\
    fs w' !! getFilename cwd (Str.trim line) (ext f) = Some code /\
    fs w' !! historyPath cwd = Some text /\
    script w' = rest /\
    stdout w' = stdout w ++
      [ "‹ Enter Prompt: "; "Select language:"; "Generating code...";
        "Preview code in terminal?";
        "Saved to " +:+ getFilename cwd (Str.trim line) (ext f);
        "Copy code to clipboard?";
        NL +:+ "Something went wrong: " +:+ message;
        NL +:+ "Press Enter to return..." ].
Proof.
  intros Hi Hlang Hf Hlen Hst Hh Hp Hfile Hvalid Hs.
  destruct w as [files out scr cs]. simpl in Hs, Hfile. subst scr.
  unfold newCode. cbv zeta.
  erewrite (newCode_begins {| fs := files; stdout := out; script := _; calls := cs |}
              line i lang f _ Hi Hlang Hf eq_refl).
  cbv beta.
  assert (Hz : (st =? 0)%Z = false) by (by apply Z.eqb_neq).
  do 3 run_step.
  erewrite try_bind_run by (by apply writeCode_run).
  erewrite try_bind_run by (by eapply (checkFormatter_run lang f _ st ws)).
  rewrite Hz. do 3 run_step.
  match goal with
  | |- context [saveHistory cwd ?p ?c ?l ?file] =>
      match goal with
      | |- context [try_catch _ _ ?w0] =>
          destruct (saveHistory_corrupt cwd p c l file w0 text) as [message Hsave];
            [|exact Hvalid|]
      end
  end.
  { cbn [fs set_fs set_script put record puts foldl].
    rewrite apply_writes_spares by done.
    by rewrite lookup_insert_ne by apply getFilename_not_history. }
  erewrite try_bind_throw by exact Hsave.
  eexists; exists message; split; [reflexivity|].
  cbn [fs set_fs set_script put record puts foldl script calls stdout exn_message SyntaxError].
  split; [rewrite apply_writes_spares by done; apply lookup_insert_eq|].
  split.
  { rewrite apply_writes_spares by done.
    by rewrite lookup_insert_ne by apply getFilename_not_history. }
  split; [done|]. by rewrite <- !app_assoc.
Qed.

Lemma newCode_saves_and_logs_witness :
  exists w',
    newCode "/home/user" "linux" (set_script generation_script blank) = (Return tt, w') /\
    fs w' !! "/home/user/generated/fizz_buzz.py" = Some "print(1)" /\
    holds_log "/home/user" (fs w')
      [ {| Entry.timestamp := first_entry_time; Entry.prompt := "Fizz Buzz";
           Entry.lang := "Python"; Entry.file := "/home/user/generated/fizz_buzz.py" |} ].
Proof.
  destruct (newCode_saves_and_logs "/home/user" "linux" (set_script generation_script blank)
              " Fizz Buzz " 2 "Python" {| cmd := "black"; ext := ".py" |} "print(1)" false
              127 [] first_entry_time "" [] [])
    as (w' & Hrun & Hfile & Hlog & _);
    try reflexivity; try apply not_elem_of_nil; try lia; try (vm_compute; lia).
  exists w'. split; [exact Hrun|]. split; [exact Hfile | exact Hlog].
Defined.

Lemma newCode_outlives_formatter_and_clipboard_witness :
  exists w',
    newCode "/home/user" "linux" (set_script failing_tools_script blank) = (Return tt, w') /\
    holds_log "/home/user" (fs w')
      [ {| Entry.timestamp := first_entry_time; Entry.prompt := "server";
           Entry.lang := "Go"; Entry.file := "/home/user/generated/server.go" |} ].
Proof.
  destruct (newCode_outlives_formatter_and_clipboard "/home/user" "linux"
              (set_script failing_tools_script blank)
              "server" 5 "Go" {| cmd := "gofmt -w"; ext := ".go" |} "package main"
              2 [] 1 [] first_entry_time "" [] [])
    as (w' & Hrun & Hlog & _);
    try reflexivity; try apply not_elem_of_nil; try lia; try (vm_compute; lia).
  exists w'. split; [exact Hrun | exact Hlog].
Defined.

Lemma newCode_reports_corrupt_history_witness :
  exists w',
    newCode "/home/user" "linux"
      (set_script corrupt_history_script view_of_corrupt_history) = (Return tt, w') /\
    fs w' !! "/home/user/generated/fizz.py" = Some "pass" /\
    fs w' !! historyPath "/home/user" = Some "not json".
Proof.
  destruct (newCode_reports_corrupt_history "/home/user" "linux"
              (set_script corrupt_history_script view_of_corrupt_history)
              "fizz" 2 "Python" {| cmd := "black"; ext := ".py" |} "pass"
              127 [] "" [] "not json")
    as (w' & message & Hrun & Hfile & Hhist & _);
    try reflexivity; try apply not_elem_of_nil; try lia; try (vm_compute; lia).
  exists w'. split; [exact Hrun|]. split; [exact Hfile | exact Hhist].
Defined.

(** ** Which turns can throw *)

Lemma iteration_new_code cwd platform w rest :
  script w = EvSelect 0 :: rest ->
  iteration cwd platform w
  = (newCode cwd platform ;; ret Continue)
      (set_script rest
         (puts [String "027"%char "c"; NL +:+ "Charisma"; "Coding Agent";
                "Select option:"] w)).
Proof. intros Hs. destruct w as [files out scr cs]. simpl in Hs. by subst scr. Qed.

Lemma iteration_leaves cwd platform w i rest :
  script w = EvSelect i :: rest ->
  i = 3%Z \/ i = (-1)%Z ->
  iteration cwd platform w
  = (Return Break,
     set_script rest
       (puts [String "027"%char "c"; NL +:+ "Charisma"; "Coding Agent";
              "Select option:"] w)).
Proof.
  intros Hs Hi. destruct w as [files out scr cs]. simpl in Hs. subst scr.
  by destruct Hi as [-> | ->].
Qed.

(** X4.  The branch that generates never throws, so a turn can only
    throw when the user chose View History or Create GitHub Gist. *)
Theorem only_view_and_gist_can_throw cwd platform w e :
  fst (iteration cwd platform w) = Throw e ->
  (forall e', fst (newCode cwd platform w) <> Throw e') /\
  exists rest, script w = EvSelect 1 :: rest \/ script w = EvSelect 2 :: rest.
Proof.
  intros H. split; [intros e'; apply never_throws_newCode|].
  destruct w as [files out scr cs].
  destruct scr as [|[i| | | | | |] rest]; try discriminate H.
  destruct (decide (-1 <= i < 4)%Z) as [Hi|Hi].
  - assert (C : i = (-1)%Z \/ i = 0%Z \/ i = 1%Z \/ i = 2%Z \/ i = 3%Z) by lia.
    destruct C as [-> | [-> | [-> | [-> | ->]]]]; try discriminate H; eauto.
    exfalso.
    rewrite (iteration_new_code cwd platform
               {| fs := files; stdout := out; script := EvSelect 0 :: rest; calls := cs |}
               rest eq_refl) in H.
    unfold bind in H.
    match type of H with
    | context [newCode cwd platform ?w0] =>
        pose proof (never_throws_newCode cwd platform w0) as N;
        destruct (newCode cwd platform w0) as [[[]|e1|] w1]
    end; simpl in *; [discriminate H | by destruct (N e1) | discriminate H].
  - exfalso. revert H. unfold iteration, bind, keyInSelect, bind, await. cbn.
    destruct ((-1 <=? i)%Z && (i <? Z.of_nat 4)%Z) eqn:E; [|discriminate].
    apply andb_prop in E as [?%Z.leb_le ?%Z.ltb_lt]. lia.
Qed.

Lemma only_view_and_gist_can_throw_witness :
  exists rest,
    script gist_of_missing_file = EvSelect 1 :: rest \/
    script gist_of_missing_file = EvSelect 2 :: rest.
Proof.
  destruct (only_view_and_gist_can_throw "/home/user" "linux" gist_of_missing_file
              (ENOENT "missing.txt") eq_refl) as [_ H].
  exact H.
Defined.

(** X5.  What [languageSelector] returns is always a language of the
    registry, so that the lookup of its extension cannot fail; on
    cancel it is JavaScript. *)
Theorem languageSelector_returns_registry_key w lang w' :
  languageSelector w = (Return lang, w') ->
  lang ∈ languages /\
  is_Some (assoc lang formatters) /\
  (head (script w) = Some (EvSelect (-1)) -> lang = "JavaScript").
Proof.
  intros H. split; [|split; [by eapply languageSelector_registry|]].
  - revert H.
    unfold languageSelector, keyInSelect, bind, stdout_write, await. cbn [fst snd put script].
    destruct (script w) as [|[i| | | | | |] rest]; try done.
    destruct ((-1 <=? i) && (i <? Z.of_nat (List.length languages)))%Z eqn:Hi; [|done].
    intros [= <- _]. apply andb_prop in Hi as [H1%Z.leb_le H2%Z.ltb_lt].
    assert (Hr : (-1 <= i < 7)%Z) by (simpl in H2; lia).
    each_language Hr; cbn; set_solver.
  - revert H.
    unfold languageSelector, keyInSelect, bind, stdout_write, await. cbn [fst snd put script].
    destruct (script w) as [|ev rest]; [done|]. cbn [head].
    intros H [= ->]. by injection H as <-.
Qed.

Lemma languageSelector_returns_registry_key_witness :
  "JavaScript" ∈ languages /\ is_Some (assoc "JavaScript" formatters).
Proof.
  destruct (languageSelector_returns_registry_key
              (set_script [EvSelect (-1)] blank) "JavaScript"
              (put "Select language:" blank) eq_refl) as (H1 & H2 & _).
  split; [exact H1 | exact H2].
Defined.

(** ** Derived names *)

(** X6.  The base name that [getFilename] derives has one code unit of
    [a-z0-9_] for each code unit of the prompt: it holds no separator
    and no dot, so the file lies directly in the output directory. *)
Theorem derived_name_is_safe cwd base e :
  exists safe,
    getFilename cwd base e = outputDir cwd +:+ "/" +:+ safe +:+ e /\
    Str.forallb is_safe safe = true /\
    String.length safe = String.length base.
Proof.
  exists (Str.toLowerCase (Str.replace re_not_alnum_i "_" base)).
  split; [|apply normal_form_safe].
  unfold getFilename. by rewrite path_join_outputDir.
Qed.

(** X7.  For a prompt of any code units, the derived file does not
    depend on the case of the ASCII letters of the prompt, and a base
    name that was derived once derives itself. *)
Theorem derived_name_is_stable cwd base e :
  Units.getFilename cwd (lower_ascii_unit <$> base) e = Units.getFilename cwd base e /\
  Units.getFilename cwd (Str.units (normalize_units base)) e = Units.getFilename cwd base e /\
  Units.getFilename cwd base e = outputDir cwd +:+ "/" +:+ normalize_units base +:+ e.
Proof.
  unfold Units.getFilename. rewrite !replace_units_normal, !path_join_outputDir.
  by rewrite normalize_lower_ascii, normalize_twice.
Qed.

(** X8.  No prompt and no extension derive the path of the history file:
    writing generated text leaves the log that the history file holds. *)
Theorem generated_file_spares_history cwd base e code w h :
  holds_log cwd (fs w) h ->
  getFilename cwd base e <> historyPath cwd /\
  holds_log cwd (fs (snd (writeCode (getFilename cwd base e) code w))) h.
Proof.
  intros Hh. split; [apply getFilename_not_history|].
  unfold writeCode, bind, writeFileSync, console_log.
  destruct (_ <? _)%nat; cbn [fst snd fs put set_fs]; [done|].
  apply holds_log_other; [apply getFilename_not_history | done].
Qed.

Lemma generated_file_spares_history_witness :
  holds_log "/home/user"
    (fs (snd (writeCode (getFilename "/home/user" "charisma_history" ".json") "[]"
                six_entries_world))) six_entries.
Proof.
  destruct (generated_file_spares_history "/home/user" "charisma_history" ".json" "[]"
              six_entries_world six_entries) as [_ H]; [|exact H].
  vm_compute. reflexivity.
Defined.

(** ** The formatter, the clipboard, the gist *)

(** X9.  For a language that is not in the registry the probe answers
    null without running any process. *)
Theorem checkFormatter_unknown_language lang w :
  assoc lang formatters = None ->
  checkFormatter lang w = (Return None, w).
Proof. intros H. unfold checkFormatter. by rewrite H. Qed.

Lemma checkFormatter_unknown_language_witness :
  checkFormatter "Rust" blank = (Return None, blank).
Proof. exact (checkFormatter_unknown_language "Rust" blank eq_refl). Defined.

(** X10.  [formatCode] runs "<cmd> <file>" and never throws: it prints
    "Code formatted" when the process exits with status zero and
    "Formatter error" otherwise; the files change only by what the
    process wrote. *)
Theorem formatCode_reports c file w st ws rest :
  script w = EvExec st ws :: rest ->
  (forall w0 e, fst (formatCode c file w0) <> Throw e) /\
  exists w',
    formatCode c file w = (Return tt, w') /\
    stdout w' = stdout w ++ [if (st =? 0)%Z then "Code formatted" else "Formatter error"] /\
    calls w' = calls w ++ [CExec (c +:+ " " +:+ file)] /\
    fs w' = apply_writes ws (fs w) /\
    script w' = rest.
Proof.
  intros Hs. split; [apply never_throws_formatCode|].
  eexists. split; [by apply (formatCode_run c file w st ws rest)|]. done.
Qed.

Lemma formatCode_reports_witness :
  exists w',
    formatCode "black" "/home/user/generated/a.py" (set_script [EvExec 123 []] blank)
    = (Return tt, w') /\
    stdout w' = ["Formatter error"].
Proof.
  destruct (formatCode_reports "black" "/home/user/generated/a.py"
              (set_script [EvExec 123 []] blank) 123 [] [] eq_refl)
    as (_ & w' & Hrun & Hout & _).
  exists w'. split; [exact Hrun | exact Hout].
Defined.

(** X11.  [copyToClipboard] never throws and is silent on failure: it
    prints "Copied to clipboard" only on exit status zero.  The command
    is pbcopy on darwin and xclip elsewhere. *)
Theorem copyToClipboard_is_silent_on_failure platform code w st ws rest :
  script w = EvExec st ws :: rest ->
  (forall w0 e, fst (copyToClipboard platform code w0) <> Throw e) /\
  exists w',
    copyToClipboard platform code w = (Return tt, w') /\
    stdout w' = stdout w ++ (if (st =? 0)%Z then ["Copied to clipboard"] else []) /\
    calls w' = calls w ++
      [CExec ("echo " +:+ chr DQUOTE +:+ code +:+ chr DQUOTE +:+ " | " +:+
              (if String.eqb platform "darwin" then "pbcopy"
               else "xclip -selection clipboard"))] /\
    script w' = rest.
Proof.
  intros Hs. split; [apply never_throws_copyToClipboard|].
  eexists. split; [by apply (copyToClipboard_run platform code w st ws rest)|].
  destruct (st =? 0)%Z; cbn [id put stdout calls script set_fs set_script record];
    by rewrite ?app_nil_r.
Qed.

Lemma copyToClipboard_is_silent_on_failure_witness :
  exists w',
    copyToClipboard "linux" "print(1)" (set_script [EvExec 1 []] blank) = (Return tt, w') /\
    stdout w' = [].
Proof.
  destruct (copyToClipboard_is_silent_on_failure "linux" "print(1)"
              (set_script [EvExec 1 []] blank) 1 [] [] eq_refl)
    as (_ & w' & Hrun & Hout & _).
  exists w'. split; [exact Hrun | exact Hout].
Defined.

(** X12.  [createGist] never throws: it prints the address of the gist
    when the request succeeds and the message of the error when it
    fails, and it writes no file. *)
Theorem createGist_reports filename code token description isPrivate w r rest :
  script w = EvPost r :: rest ->
  (forall w0 e, fst (createGist filename code token description isPrivate w0) <> Throw e) /\
  exists w',
    createGist filename code token description isPrivate w = (Return tt, w') /\
    stdout w' = stdout w ++
      [match r with
       | inr html_url => "Gist created: " +:+ html_url
       | inl error => "Failed to create Gist: " +:+ exn_message error
       end] /\
    fs w' = fs w /\
    script w' = rest.
Proof.
  intros Hs. split; [apply never_throws_createGist|].
  eexists. split; [by apply (createGist_run _ _ _ _ _ w r rest)|]. done.
Qed.

Lemma createGist_reports_witness :
  exists w',
    createGist "a.py" "pass" "ghp_0123" "" true
      (set_script [EvPost (inl {| exn_name := "AxiosError";
                                  exn_message := "Request failed with status code 401" |})]
         blank) = (Return tt, w') /\
    stdout w' = ["Failed to create Gist: Request failed with status code 401"].
Proof.
  destruct (createGist_reports "a.py" "pass" "ghp_0123" "" true
              (set_script [EvPost (inl {| exn_name := "AxiosError";
                                          exn_message := "Request failed with status code 401" |})]
                 blank) _ [] eq_refl)
    as (_ & w' & Hrun & Hout & _).
  exists w'. split; [exact Hrun | exact Hout].
Defined.

(** X13.  The gist turn, when the named file exists: the request carries
    the text of that file under its name, with the default description
    when none was typed; whatever the service answers, the turn goes
    back to the menu and no file has changed. *)
Theorem gist_turn_returns_to_menu cwd platform w token description isPrivate name r rest code :
  script w = EvSelect 2 :: EvLine token :: EvLine description :: EvYN isPrivate ::
             EvLine name :: EvPost r :: rest ->
  fs w !! name = Some code ->
  exists w' body,
    iteration cwd platform w = (Return Continue, w') /\
    fs w' = fs w /\
    script w' = rest /\
    calls w' = calls w ++ [CPost "https://api.github.com/gists" body
                             [("Authorization", "token " +:+ token)]] /\
    Gist.files body = {[ name := {| Gist.content := code |} ]} /\
    Gist.public body = negb isPrivate /\
    Gist.description body
      = (if String.eqb description "" then "Generated Code Gist" else description).
Proof.
  intros Hs Hfile. destruct w as [files out scr cs]. simpl in Hs, Hfile. subst scr.
  unfold iteration.
  do 4 run_step. cbv zeta. cbn [is_ orb Z.eqb menu Z.to_nat lookup].
  change (is_ (menu !! Z.to_nat 2) "Exit") with false.
  change (is_ (menu !! Z.to_nat 2) "View History") with false.
  change (is_ (menu !! Z.to_nat 2) "Create GitHub Gist") with true.
  cbn [orb].
  do 4 run_step.
  erewrite bind_run by (unfold readFileSync; cbn [fs set_script put]; by rewrite Hfile).
  erewrite bind_run by (by eapply (createGist_run _ _ _ _ _ _ r rest)).
  eexists _, _. split; [reflexivity|]. done.
Qed.

Lemma gist_turn_returns_to_menu_witness :
  exists w',
    iteration "/home/user" "linux" gist_of_present_file = (Return Continue, w') /\
    fs w' = fs gist_of_present_file.
Proof.
  destruct (gist_turn_returns_to_menu "/home/user" "linux" gist_of_present_file
              "ghp_0123" "" false "notes.txt"
              (inr "https://gist.github.com/0123") [] "hello" eq_refl eq_refl)
    as (w' & body & Hrun & Hfs & _).
  exists w'. split; [exact Hrun | exact Hfs].
Defined.

(** ** The history file under the view and under a failed append *)

(** X14.  The history view only prints: whatever the history file holds,
    and also when it throws, the files, the calls to the outside and the
    pending answers are those from before. *)
Theorem viewHistory_only_reads cwd w :
  fs (snd (viewHistory cwd w)) = fs w /\
  calls (snd (viewHistory cwd w)) = calls w /\
  script (snd (viewHistory cwd w)) = script w.
Proof. apply only_prints_viewHistory. Qed.

(** X15.  When the history file holds something else than a JSON array,
    the view throws and shows no entry: a SyntaxError before anything is
    printed when the text is not JSON, a TypeError after the header
    when it is JSON of another kind. *)
Theorem viewHistory_rejects_non_logs cwd w text :
  fs w !! historyPath cwd = Some text ->
  (JSON.valid text = false ->
     exists message, viewHistory cwd w = (Throw (SyntaxError message), w)) /\
  (forall v, JSON.parse text = Some v -> (forall items, v <> JArr items) ->
     exists message,
       viewHistory cwd w = (Throw (TypeError message), put (NL +:+ "› History:") w)).
Proof.
  intros Hfile. split.
  - intros Hvalid. destruct (JSON_parse_invalid text w Hvalid) as [message Hmsg].
    exists message. unfold viewHistory, bind, existsSync, readFileSync.
    rewrite Hfile. cbn [negb fst snd]. by rewrite Hfile, Hmsg.
  - intros v Hparse Hno.
    unfold viewHistory, bind, existsSync, readFileSync, JSON_parse.
    rewrite Hfile. cbn [negb fst snd]. rewrite Hfile, Hparse.
    destruct v; try (by eexists); by destruct (Hno items).
Qed.

Lemma viewHistory_rejects_non_logs_witness :
  (exists message,
     viewHistory "/home/user" view_of_corrupt_history
     = (Throw (SyntaxError message), view_of_corrupt_history)) /\
  (exists message,
     viewHistory "/home/user" object_history_world
     = (Throw (TypeError message), put (NL +:+ "› History:") object_history_world)).
Proof.
  split.
  - destruct (viewHistory_rejects_non_logs "/home/user" view_of_corrupt_history
                "not json" eq_refl) as [H _].
    exact (H eq_refl).
  - destruct (viewHistory_rejects_non_logs "/home/user" object_history_world "{}" eq_refl)
      as [_ H].
    apply (H (JObj [])); [reflexivity | discriminate].
Defined.

(** X16.  [saveHistory] does not write over a history file that it
    cannot extend: when the text is not JSON, or is JSON of another
    kind than an array, the call does not return normally and every
    file keeps its text. *)
Theorem saveHistory_keeps_unreadable_file cwd prompt code lang file w text :
  fs w !! historyPath cwd = Some text ->
  JSON.valid text = false \/
    (exists v, JSON.parse text = Some v /\ forall items, v <> JArr items) ->
  fs (snd (saveHistory cwd prompt code lang file w)) = fs w /\
  forall a, fst (saveHistory cwd prompt code lang file w) <> Return a.
Proof.
  intros Hfile [Hvalid | (v & Hparse & Hno)].
  - destruct (saveHistory_corrupt cwd prompt code lang file w text Hfile Hvalid)
      as [message ->]. by split.
  - unfold saveHistory, bind, existsSync, readFileSync, JSON_parse.
    rewrite Hfile. cbn [fst snd]. rewrite Hfile, Hparse.
    cbn [ret fst snd].
    destruct v; try (by destruct (Hno items)); try done.
    all: unfold Date_toISOString, await;
      destruct (script w) as [|[] rest]; done.
Qed.

Lemma saveHistory_keeps_unreadable_file_witness :
  fs (snd (saveHistory "/home/user" "fizz" "pass" "Python" "/home/user/generated/fizz.py"
             (set_script [EvNow first_entry_time] object_history_world)))
  = fs object_history_world /\
  fs (snd (saveHistory "/home/user" "fizz" "pass" "Python" "/home/user/generated/fizz.py"
             view_of_corrupt_history))
  = fs view_of_corrupt_history.
Proof.
  split.
  - destruct (saveHistory_keeps_unreadable_file "/home/user" "fizz" "pass" "Python"
                "/home/user/generated/fizz.py"
                (set_script [EvNow first_entry_time] object_history_world) "{}" eq_refl)
      as [H _]; [|exact H].
    right. exists (JObj []). split; [reflexivity | discriminate].
  - destruct (saveHistory_keeps_unreadable_file "/home/user" "fizz" "pass" "Python"
                "/home/user/generated/fizz.py" view_of_corrupt_history "not json" eq_refl)
      as [H _]; [|exact H].
    left. reflexivity.
Defined.

(** ** Leaving, and coming back from the view *)

Lemma question_run query w text rest :
  script w = EvLine text :: rest ->
  question query w = (Return text, set_script rest (put query w)).
Proof.
  intros Hs. unfold question, bind, stdout_write, await. cbn [fst snd put script].
  by rewrite Hs.
Qed.

(** X17.  Choosing Exit, or cancelling the menu, ends [main] normally:
    nothing is read or written and nothing is asked of the outside. *)
Theorem exit_ends_main cwd platform w i rest :
  script w = EvSelect i :: rest ->
  i = 3%Z \/ i = (-1)%Z ->
  exists w',
    main cwd platform w = (Return tt, w') /\
    fs w' = fs w /\ calls w' = calls w /\ script w' = rest.
Proof.
  intros Hs Hi. unfold main. rewrite Hs. cbn [List.length main_loop].
  erewrite bind_run by (by apply (iteration_leaves cwd platform w i rest)).
  eexists. split; [reflexivity|].
  cbn [set_script fs calls script]. by rewrite fs_puts, calls_puts.
Qed.

Lemma exit_ends_main_witness :
  exists w', main "/home/user" "linux" (set_script [EvSelect 3] six_entries_world)
             = (Return tt, w') /\ fs w' = fs six_entries_world.
Proof.
  destruct (exit_ends_main "/home/user" "linux" (set_script [EvSelect 3] six_entries_world)
              3 [] eq_refl (or_introl eq_refl)) as (w' & Hrun & Hfs & _).
  exists w'. split; [exact Hrun | exact Hfs].
Defined.

Lemma view_turn_run cwd platform w enter rest h :
  holds_log cwd (fs w) h ->
  script w = EvSelect 1 :: EvLine enter :: rest ->
  exists w',
    iteration cwd platform w = (Return Continue, w') /\
    fs w' = fs w /\ calls w' = calls w /\ script w' = rest /\
    stdout w' = stdout w ++
      [String "027"%char "c"; NL +:+ "Charisma"; "Coding Agent"; "Select option:"] ++
      (if fs w !! historyPath cwd is Some _
       then (NL +:+ "› History:") :: view_lines (recent 5 h)
       else ["No history yet."]) ++
      [NL +:+ "Press Enter to return..."].
Proof.
  intros Hh Hs. destruct w as [files out scr cs]. simpl in Hs, Hh. subst scr.
  unfold iteration. do 4 run_step. cbv zeta.
  change (is_ (menu !! Z.to_nat 1) "Exit") with false.
  change (is_ (menu !! Z.to_nat 1) "View History") with true.
  cbn [orb Z.eqb].
  unfold holds_log in Hh. cbn [fs].
  destruct (files !! historyPath cwd) as [text|] eqn:Hfile.
  - erewrite bind_run by (by apply (viewHistory_run cwd _ text h)).
    erewrite bind_run by (apply (question_run _ _ enter rest); by rewrite script_puts).
    eexists. split; [reflexivity|].
    cbn [fs calls script stdout put set_script].
    rewrite fs_puts, calls_puts, stdout_puts. cbn [fs calls stdout put set_script].
    repeat split. by rewrite <- !app_assoc.
  - erewrite bind_run by (by apply viewHistory_absent).
    run_step. eexists. split; [reflexivity|].
    cbn [fs calls script stdout put set_script].
    repeat split. by rewrite <- !app_assoc.
Qed.

(** X18.  The view turn, on a store that is absent or holds a log: the
    view is printed (the last five entries, or "No history yet."), the
    user presses Enter, and the turn goes back to the menu with the
    files as they were. *)
Theorem view_turn_returns_to_menu cwd platform w enter rest h :
  holds_log cwd (fs w) h ->
  script w = EvSelect 1 :: EvLine enter :: rest ->
  exists w',
    iteration cwd platform w = (Return Continue, w') /\
    fs w' = fs w /\ calls w' = calls w /\ script w' = rest /\
    stdout w' = stdout w ++
      [String "027"%char "c"; NL +:+ "Charisma"; "Coding Agent"; "Select option:"] ++
      (if fs w !! historyPath cwd is Some _
       then (NL +:+ "› History:") :: view_lines (recent 5 h)
       else ["No history yet."]) ++
      [NL +:+ "Press Enter to return..."].
Proof.
  intros Hh Hs. exact (view_turn_run cwd platform w enter rest h Hh Hs).
Qed.

Lemma view_turn_returns_to_menu_witness :
  exists w',
    iteration "/home/user" "linux"
      (set_script [EvSelect 1; EvLine ""] six_entries_world) = (Return Continue, w') /\
    fs w' = fs six_entries_world.
Proof.
  destruct (view_turn_returns_to_menu "/home/user" "linux"
              (set_script [EvSelect 1; EvLine ""] six_entries_world) "" [] six_entries)
    as (w' & Hrun & Hfs & _).
  - vm_compute. reflexivity.
  - reflexivity.
  - exists w'. split; [exact Hrun | exact Hfs].
Defined.

(** ** A whole session *)

Lemma recent_snoc (old : list Entry.t) new :
  recent 5 (old ++ [new]) = recent 4 old ++ [new].
Proof.
  unfold recent. rewrite length_app. cbn [List.length].
  rewrite drop_app_le by lia.
  by replace (List.length old + 1 - 5)%nat with (List.length old - 4)%nat by lia.
Qed.

Lemma lines_from_snoc i es e :
  lines_from i (es ++ [e]) = lines_from i es ++ [line_text e (i + List.length es)].
Proof.
  revert i. induction es as [|x es IH]; intros i.
  - cbn. by replace (i + 0)%nat with i by lia.
  - cbn [app]. rewrite !lines_from_cons, IH. cbn [app List.length].
    by replace (i + S (List.length es))%nat with (S i + List.length es)%nat by lia.
Qed.

(** X19.  Generate (a file whose name is at most 255 bytes long), then
    view, then leave: the entry of the generation is the last line of
    the history view, numbered by its place among the last five, and
    [main] ends normally. *)
Theorem session_shows_the_new_entry
    cwd platform w line i lang f code st ws now enter1 enter2 rest old :
  (0 <= i)%Z ->
  languages !! Z.to_nat i = Some lang ->
  assoc lang formatters = Some f ->
  (byte_length (basename (getFilename cwd (Str.trim line) (ext f))) <= NAME_MAX)%nat ->
  st <> 0%Z ->
  spares (historyPath cwd) ws ->
  spares (getFilename cwd (Str.trim line) (ext f)) ws ->
  holds_log cwd (fs w) old ->
  script w = EvSelect 0 :: EvLine line :: EvSelect i :: EvGenerate (inr code) ::
             EvYN false :: EvExec st ws :: EvYN false :: EvNow now :: EvLine enter1 ::
             EvSelect 1 :: EvLine enter2 :: EvSelect 3 :: rest ->
  exists w',
    main cwd platform w = (Return tt, w') /\
    script w' = rest /\
    holds_log cwd (fs w')
      (old ++ [ {| Entry.timestamp := now; Entry.prompt := Str.trim line;
                   Entry.lang := lang;
                   Entry.file := getFilename cwd (Str.trim line) (ext f) |} ]) /\
    (pretty (Nat.min 4 (List.length old) + 1)%nat +:+ ". [" +:+ lang +:+ "] → " +:+
     Str.trim line +:+ " (" +:+ getFilename cwd (Str.trim line) (ext f) +:+ ")")
      ∈ stdout w'.
Proof.
  intros Hi Hlang Hf Hlen Hst Hh Hp Hold Hs.
  set (new := {| Entry.timestamp := now; Entry.prompt := Str.trim line;
                 Entry.lang := lang;
                 Entry.file := getFilename cwd (Str.trim line) (ext f) |}).
  unfold main. rewrite Hs. cbn [List.length main_loop].
  (* the turn that generates *)
  set (w0 := set_script (EvLine line :: EvSelect i :: EvGenerate (inr code) ::
                         EvYN false :: EvExec st ws :: EvYN false :: EvNow now ::
                         EvLine enter1 :: EvSelect 1 :: EvLine enter2 :: EvSelect 3 :: rest)
               (puts [String "027"%char "c"; NL +:+ "Charisma"; "Coding Agent";
                      "Select option:"] w)).
  assert (Hold0 : holds_log cwd (fs w0) old).
  { unfold w0. cbn [fs set_script]. by rewrite fs_puts. }
  destruct (newCode_success_run cwd platform w0 line i lang f code false st ws now enter1
              (EvSelect 1 :: EvLine enter2 :: EvSelect 3 :: rest) old
              Hi Hlang Hf Hlen Hst Hh Hp Hold0 eq_refl)
    as (w1 & Hrun1 & _ & Hlog1 & Hscr1 & _).
  erewrite bind_run.
  2:{ rewrite (iteration_new_code cwd platform w _ Hs).
      erewrite bind_run by exact Hrun1. reflexivity. }
  cbn [main_loop].
  (* the turn that views *)
  destruct (view_turn_run cwd platform w1 enter2 (EvSelect 3 :: rest) (old ++ [new]))
    as (w2 & Hrun2 & Hfs2 & _ & Hscr2 & Hout2); [done..|].
  erewrite bind_run by exact Hrun2.
  cbn [main_loop].
  (* the turn that leaves *)
  erewrite bind_run
    by exact (iteration_leaves cwd platform w2 3 rest Hscr2 (or_introl eq_refl)).
  eexists. split; [reflexivity|].
  cbn [set_script script fs stdout]. rewrite fs_puts, stdout_puts, Hfs2.
  split; [done|]. split; [done|].
  rewrite Hout2.
  assert (Hsome : is_Some (fs w1 !! historyPath cwd)).
  { unfold holds_log in Hlog1. destruct (fs w1 !! historyPath cwd); [eauto|].
    by destruct old. }
  destruct Hsome as [text ->].
  unfold view_lines. rewrite recent_snoc, lines_from_snoc.
  rewrite recent_length. cbn [Nat.add].
  rewrite !elem_of_app. left. right. right. left.
  rewrite elem_of_cons. right. rewrite elem_of_app. right. by left.
Qed.

Lemma session_shows_the_new_entry_witness :
  exists w',
    main "/home/user" "linux" (set_script session_script blank) = (Return tt, w') /\
    "1. [Python] → Fizz Buzz (/home/user/generated/fizz_buzz.py)" ∈ stdout w'.
Proof.
  destruct (session_shows_the_new_entry "/home/user" "linux"
              (set_script session_script blank)
              " Fizz Buzz " 2 "Python" {| cmd := "black"; ext := ".py" |} "print(1)"
              127 [] first_entry_time "" "" [] [])
    as (w' & Hrun & _ & _ & Hline);
    try reflexivity; try apply not_elem_of_nil; try lia; try (vm_compute; lia).
  exists w'. split; [exact Hrun | exact Hline].
Defined.
